(** * Fitness tracker: workout calculations of [main.py]

    A shallow embedding of the [Training] class hierarchy ([Running],
    [SportsWalking], [Swimming]), of the report object [InfoMessage] and of
    the factory [read_package], with the properties of the calculation
    module stated and proved over it.

    Numbers are Python numbers: unbounded integers and binary64 floats, with
    Python's mixed arithmetic and the exceptions it raises.  Objects carry an
    instance dictionary; attribute and method lookup walk the class and its
    base, as [self.LEN_STEP] and [self.get_mean_speed()] do.  A method body
    is a computation on [self] that may assign attributes and may raise.

    [ABC] and [abstractmethod] are those of Python's [abc] module.  Standard
    output is the list of the lines printed so far.

    A power of floats calls the C library's [pow], whose result the C
    standard does not fix to the last bit: [pow] is a parameter of the
    development, and what is proved holds for every C library. *)

From Stdlib Require Import ZArith QArith Qabs Qpower Floats Lia Ascii.
From Stdlib Require Import DecimalString DecimalN.
From stdpp Require Import gmap strings.

Set Warnings "-inexact-float".
Local Open Scope Z_scope.

(** ** Python numbers *)

(** A measurement or a computed quantity: an [int] or a [float]. *)
Inductive value : Type :=
| VInt (z : Z)
| VFloat (f : float).

(** The exceptions the module can raise.  [Unsupported] is not a Python
    exception: it marks the powers this development does not describe
    (the source only ever squares, [K = 2]). *)
Inductive exn : Type :=
| ZeroDivisionError
| OverflowError
| TypeError
| ValueError
| AttributeError
| Unsupported.

Inductive result (A : Type) : Type :=
| Ok (a : A)
| Raise (e : exn).
Arguments Ok {A} a.
Arguments Raise {A} e.

#[export] Instance result_ret : MRet result := λ A a, Ok a.
#[export] Instance result_bind : MBind result := λ A B f r,
  match r with
  | Ok a => f a
  | Raise e => Raise e
  end.

(** [float(z)]: the integer rounded to the nearest binary64 (ties to even);
    an integer too large for a float raises [OverflowError]. *)
Definition float_of_int (z : Z) : result float :=
  match binary_normalize prec emax z 0 false with
  | S754_infinity _ => Raise OverflowError
  | sf => Ok (SF2Prim sf)
  end.

(** The float operand of a mixed operation. *)
Definition to_float (v : value) : result float :=
  match v with
  | VInt z => float_of_int z
  | VFloat f => Ok f
  end.

(** [a * b] *)
Definition py_mul (a b : value) : result value :=
  match a, b with
  | VInt x, VInt y => Ok (VInt (x * y))
  | _, _ =>
      x ← to_float a;
      y ← to_float b;
      mret (VFloat (x * y)%float)
  end.

(** [a + b] *)
Definition py_add (a b : value) : result value :=
  match a, b with
  | VInt x, VInt y => Ok (VInt (x + y))
  | _, _ =>
      x ← to_float a;
      y ← to_float b;
      mret (VFloat (x + y)%float)
  end.

(** [x / y] on two integers: the quotient rounded once to the nearest
    binary64.  A zero dividend keeps the sign of the quotient. *)
Definition int_true_divide (x y : Z) : result value :=
  if decide (y = 0) then Raise ZeroDivisionError
  else
    let negate := xorb (x <? 0) (y <? 0) in
    match x with
    | 0 => Ok (VFloat (SF2Prim (S754_zero negate)))
    | _ =>
        match SFdiv prec emax
                (S754_finite (x <? 0) (Z.to_pos (Z.abs x)) 0)
                (S754_finite (y <? 0) (Z.to_pos (Z.abs y)) 0) with
        | S754_infinity _ => Raise OverflowError
        | sf => Ok (VFloat (SF2Prim sf))
        end
    end.

(** [a / b]: true division, always a float. *)
Definition py_truediv (a b : value) : result value :=
  match a, b with
  | VInt x, VInt y => int_true_divide x y
  | _, _ =>
      x ← to_float a;
      y ← to_float b;
      if (y =? 0)%float then Raise ZeroDivisionError
      else mret (VFloat (x / y)%float)
  end.

(** The exact rational a finite float stands for. *)
Definition float_to_Q (f : float) : option Q :=
  match Prim2SF f with
  | S754_zero _ => Some 0%Q
  | S754_finite s m e => Some (inject_Z (cond_Zopp s (Z.pos m)) * 2 ^ e)%Q
  | _ => None
  end.

Definition value_to_Q (v : value) : option Q :=
  match v with
  | VInt z => Some (inject_Z z)
  | VFloat f => float_to_Q f
  end.

(** [|v - q| <= tol], on the exact value of [v]. *)
Definition within (tol : Q) (v : value) (q : Q) : bool :=
  match value_to_Q v with
  | Some r => Qle_bool (Qabs (r - q)) tol
  | None => false
  end.

(** [v] is the decimal [q] to the three decimals the report prints:
    [|v - q| <= 0.0005]. *)
Definition approx3 (v : value) (q : Q) : bool := within (1 # 2000) v q.

(** [v > 0] and [v == 0] as Python compares a number with zero. *)
Definition num_is_positive (v : value) : bool :=
  match v with
  | VInt z => 0 <? z
  | VFloat f => (0 <? f)%float
  end.

Definition num_is_zero (v : value) : bool :=
  match v with
  | VInt z => z =? 0
  | VFloat f => (f =? 0)%float
  end.

(** ** Classes and objects *)

(** The classes of the hierarchy. *)
Inductive cls : Type :=
| Training
| Running
| SportsWalking
| Swimming.

#[export] Instance cls_eq_dec : EqDecision cls.
Proof. solve_decision. Defined.

(** [Training(ABC)] is the only base; the three workouts derive from it. *)
Definition base (c : cls) : option cls :=
  match c with
  | Training => None
  | Running | SportsWalking | Swimming => Some Training
  end.

(** The method resolution order: the class, then its base. *)
Definition mro (c : cls) : list cls :=
  match base c with
  | Some b => [c; b]
  | None => [c]
  end.

(** [__name__] *)
Definition class_name (c : cls) : string :=
  match c with
  | Training => "Training"
  | Running => "Running"
  | SportsWalking => "SportsWalking"
  | Swimming => "Swimming"
  end.

(** The constants each class body assigns. *)
Definition class_dict (c : cls) : gmap string value :=
  match c with
  | Training =>
      <["LEN_STEP" := VFloat 0.65]>
      (<["M_IN_KM" := VInt 1000]>
      (<["MINUTES_IN_HOUR" := VInt 60]> ∅))
  | Running =>
      <["CALORIES_MEAN_SPEED_MULTIPLIER" := VInt 18]>
      (<["CALORIES_MEAN_SPEED_SHIFT" := VFloat 1.79]> ∅)
  | SportsWalking =>
      <["coe_ff1" := VFloat 0.029]>
      (<["coe_ff2" := VFloat 0.035]>
      (<["K" := VInt 2]>
      (<["G" := VFloat 0.278]>
      (<["L" := VInt 100]> ∅))))
  | Swimming =>
      <["LEN_STEP" := VFloat 1.38]>
      (<["COEFF_CALOR1" := VFloat 1.1]>
      (<["COEFF_CALOR2" := VInt 2]> ∅))
  end.

(** The methods each class body defines. *)
Definition class_methods (c : cls) : list string :=
  match c with
  | Training =>
      ["__init__"; "get_spent_calories"; "get_distance"; "get_mean_speed";
       "show_training_info"]
  | Running => ["get_spent_calories"]
  | SportsWalking => ["__init__"; "get_spent_calories"]
  | Swimming => ["__init__"; "get_mean_speed"; "get_spent_calories"]
  end.

(** [get_spent_calories] is abstract in [Training]: a class that inherits it
    unchanged cannot be instantiated. *)
Definition abstract_methods (c : cls) : list string :=
  match c with
  | Training => ["get_spent_calories"]
  | _ => []
  end.

Definition defines (c : cls) (m : string) : bool :=
  bool_decide (m ∈ class_methods c).

(** The first class of the resolution order whose body defines [m]. *)
Definition resolve (c : cls) (m : string) : option cls :=
  head (filter (λ k, defines k m = true) (mro c)).

(** The first class of the resolution order that assigns the constant. *)
Fixpoint class_lookup (l : list cls) (name : string) : option value :=
  match l with
  | [] => None
  | k :: l' =>
      match class_dict k !! name with
      | Some v => Some v
      | None => class_lookup l' name
      end
  end.

(** An instance: its class and its [__dict__]. *)
Record object : Type := Object {
  ob_class : cls;
  ob_dict : gmap string value
}.

(** ** Computations on [self] *)

(** A method body runs on [self], may rebind its attributes and returns or
    raises. *)
Definition Py (A : Type) : Type := object → result A * object.

#[export] Instance Py_ret : MRet Py := λ A a self, (Ok a, self).
#[export] Instance Py_bind : MBind Py := λ A B f m self,
  match m self with
  | (Ok a, self') => f a self'
  | (Raise e, self') => (Raise e, self')
  end.

Definition returned {A} (m : Py A) (self : object) : result A := fst (m self).
Definition state_after {A} (m : Py A) (self : object) : object := snd (m self).

(** A pure operation that may raise. *)
Definition lift {A} (r : result A) : Py A := λ self, (r, self).

(** Where [self.name] is found: the instance dictionary first, then the
    classes of the resolution order. *)
Definition find_attr (self : object) (name : string) : option value :=
  match ob_dict self !! name with
  | Some v => Some v
  | None => class_lookup (mro (ob_class self)) name
  end.

(** [self.name] *)
Definition getattr (name : string) : Py value := λ self,
  match find_attr self name with
  | Some v => (Ok v, self)
  | None => (Raise AttributeError, self)
  end.

(** [self.name = v] *)
Definition setattr (name : string) (v : value) : Py unit := λ self,
  (Ok tt, Object (ob_class self) (<[name := v]> (ob_dict self))).

Definition mul (a b : value) : Py value := lift (py_mul a b).
Definition add (a b : value) : Py value := lift (py_add a b).
Definition truediv (a b : value) : Py value := lift (py_truediv a b).

(** A call [self.m()]: the body comes from the first class of the resolution
    order that defines [m]. *)
Definition call {A} (m : string) (body : cls → option (Py A)) : Py A := λ self,
  match resolve (ob_class self) m ≫= body with
  | Some f => f self
  | None => (Raise AttributeError, self)
  end.

(** ** [InfoMessage] *)

Record InfoMessage : Type := {
  training_type : string;
  duration : value;
  distance : value;
  speed : value;
  calories : value
}.

(** ** [Training] *)

Definition Training_init (action duration weight : value) : Py unit :=
  setattr "action_times" action;;
  setattr "duration_hour" duration;;
  setattr "weight_kg" weight.

Definition Training_get_distance : Py value :=
  action_times ← getattr "action_times";
  LEN_STEP ← getattr "LEN_STEP";
  steps ← mul action_times LEN_STEP;
  M_IN_KM ← getattr "M_IN_KM";
  truediv steps M_IN_KM.

Definition get_distance : Py value :=
  call "get_distance"
    (λ k, match k with Training => Some Training_get_distance | _ => None end).

Definition Training_get_mean_speed : Py value :=
  dist ← get_distance;
  duration_hour ← getattr "duration_hour";
  truediv dist duration_hour.

(** ** [Swimming] *)

Definition Swimming_init
    (action duration weight length_pool count_pool : value) : Py unit :=
  Training_init action duration weight;;
  setattr "length_pool_meters" length_pool;;
  setattr "count_pool_times" count_pool.

Definition Swimming_get_mean_speed : Py value :=
  length_pool_meters ← getattr "length_pool_meters";
  count_pool_times ← getattr "count_pool_times";
  swum ← mul length_pool_meters count_pool_times;
  M_IN_KM ← getattr "M_IN_KM";
  km ← truediv swum M_IN_KM;
  duration_hour ← getattr "duration_hour";
  truediv km duration_hour.

Definition get_mean_speed : Py value :=
  call "get_mean_speed"
    (λ k, match k with
          | Training => Some Training_get_mean_speed
          | Swimming => Some Swimming_get_mean_speed
          | _ => None
          end).

Definition Swimming_get_spent_calories : Py value :=
  mean_speed ← get_mean_speed;
  COEFF_CALOR1 ← getattr "COEFF_CALOR1";
  shifted ← add mean_speed COEFF_CALOR1;
  COEFF_CALOR2 ← getattr "COEFF_CALOR2";
  doubled ← mul shifted COEFF_CALOR2;
  weight_kg ← getattr "weight_kg";
  weighted ← mul doubled weight_kg;
  duration_hour ← getattr "duration_hour";
  mul weighted duration_hour.

(** ** [Running] *)

Definition Running_get_spent_calories : Py value :=
  MULTIPLIER ← getattr "CALORIES_MEAN_SPEED_MULTIPLIER";
  mean_speed ← get_mean_speed;
  scaled ← mul MULTIPLIER mean_speed;
  SHIFT ← getattr "CALORIES_MEAN_SPEED_SHIFT";
  shifted ← add scaled SHIFT;
  weight_kg ← getattr "weight_kg";
  weighted ← mul shifted weight_kg;
  M_IN_KM ← getattr "M_IN_KM";
  per_minute ← truediv weighted M_IN_KM;
  duration_hour ← getattr "duration_hour";
  MINUTES_IN_HOUR ← getattr "MINUTES_IN_HOUR";
  minutes ← mul duration_hour MINUTES_IN_HOUR;
  mul per_minute minutes.

(** ** Powers *)

Section Platform.

(** The C library's [pow], which a power of floats calls: the double it
    returns, and whether it sets [errno] to [ERANGE].  For a positive base
    it sets no other error.  Its result is the platform's: the C standard
    asks for no correct rounding, and the libraries differ in the last
    bit. *)
Variable libm_pow : float → float → float * bool.

(** [x ** 2.0] as the interpreter's [float_pow] computes it.  The special
    cases are settled before the C library is called: a nan is returned, an
    infinity gives the positive infinity, a zero gives [0.0], a negative base
    is replaced by its absolute value, and one gives [1.0].  Otherwise the
    result is that of [pow]; a range error is taken on when the result is
    infinite and dropped when it is zero, and what is left of it raises
    [OverflowError]. *)
Definition float_pow2 (x : float) : result float :=
  if is_nan x then Ok x
  else if is_infinity x then Ok infinity
  else if (x =? 0)%float then Ok 0%float
  else
    let iv := abs x in
    if (iv =? 1)%float then Ok 1%float
    else
      let '(ix, erange) := libm_pow iv 2 in
      let erange :=
        if erange then negb (ix =? 0)%float else is_infinity ix in
      if erange then Raise OverflowError else Ok ix.

(** [a ** b], for the exponent the source uses. *)
Definition py_pow (a b : value) : result value :=
  match b with
  | VInt 2 =>
      match a with
      | VInt x => Ok (VInt (x * x))
      | VFloat x => r ← float_pow2 x; mret (VFloat r)
      end
  | _ => Raise Unsupported
  end.

Definition pow (a b : value) : Py value := lift (py_pow a b).

(** ** [SportsWalking] *)

(** The attribute is named [height_cm]; it holds [height / L]. *)
Definition SportsWalking_init (action duration weight height : value) : Py unit :=
  Training_init action duration weight;;
  L ← getattr "L";
  scaled ← truediv height L;
  setattr "height_cm" scaled.

Definition SportsWalking_get_spent_calories : Py value :=
  G ← getattr "G";
  mean_speed ← get_mean_speed;
  SPEED_M ← mul G mean_speed;
  coe_ff2 ← getattr "coe_ff2";
  weight_kg ← getattr "weight_kg";
  rest ← mul coe_ff2 weight_kg;
  K ← getattr "K";
  squared ← pow SPEED_M K;
  height_cm ← getattr "height_cm";
  ratio ← truediv squared height_cm;
  coe_ff1 ← getattr "coe_ff1";
  scaled ← mul ratio coe_ff1;
  weight_kg' ← getattr "weight_kg";
  moving ← mul scaled weight_kg';
  per_minute ← add rest moving;
  duration_hour ← getattr "duration_hour";
  MINUTES_IN_HOUR ← getattr "MINUTES_IN_HOUR";
  minutes ← mul duration_hour MINUTES_IN_HOUR;
  mul per_minute minutes.

(** ** Dispatch of the abstract method, and the report *)

(** [Training.get_spent_calories] is abstract and its body is [pass]; no
    instance resolves to it, since [Training] itself is never instantiated. *)
Definition get_spent_calories : Py value :=
  call "get_spent_calories"
    (λ k, match k with
          | Training => None
          | Running => Some Running_get_spent_calories
          | SportsWalking => Some SportsWalking_get_spent_calories
          | Swimming => Some Swimming_get_spent_calories
          end).

(** [self.__class__.__name__] *)
Definition type_name : Py string := λ self,
  (Ok (class_name (ob_class self)), self).

Definition Training_show_training_info : Py InfoMessage :=
  name ← type_name;
  duration_hour ← getattr "duration_hour";
  dist ← get_distance;
  mean_speed ← get_mean_speed;
  spent ← get_spent_calories;
  mret {| training_type := name;
          duration := duration_hour;
          distance := dist;
          speed := mean_speed;
          calories := spent |}.

Definition show_training_info : Py InfoMessage :=
  call "show_training_info"
    (λ k, match k with Training => Some Training_show_training_info | _ => None end).

(** ** Construction and the factory *)

(** A class is abstract when one of the abstract methods of its resolution
    order still resolves to the abstract definition. *)
Definition is_abstract (c : cls) : bool :=
  existsb
    (λ k, existsb (λ m, bool_decide (resolve c m = Some k)) (abstract_methods k))
    (mro c).

(** The object a constructor leaves behind, unless it raised. *)
Definition constructed (init : Py unit) (self : object) : result object :=
  match init self with
  | (Ok _, self') => Ok self'
  | (Raise e, _) => Raise e
  end.

(** The call of [c] on the spread list: a fresh instance of [c] initialised by the [__init__] that
    [c] resolves to, the list spread over its parameters.  An abstract class
    or a list of the wrong length raises [TypeError]. *)
Definition instantiate (c : cls) (data : list value) : result object :=
  if is_abstract c then Raise TypeError
  else
    let self := Object c ∅ in
    match resolve c "__init__", data with
    | Some Training, [action; duration; weight] =>
        constructed (Training_init action duration weight) self
    | Some SportsWalking, [action; duration; weight; height] =>
        constructed (SportsWalking_init action duration weight height) self
    | Some Swimming, [action; duration; weight; length_pool; count_pool] =>
        constructed
          (Swimming_init action duration weight length_pool count_pool) self
    | _, _ => Raise TypeError
    end.

Definition training_data : gmap string cls :=
  <["SWM" := Swimming]> (<["RUN" := Running]> (<["WLK" := SportsWalking]> ∅)).

Definition read_package (workout_type : string) (data : list value)
    : result object :=
  match training_data !! workout_type with
  | None => Raise ValueError
  | Some c => instantiate c data
  end.

(** ** Rendering: [InfoMessage.get_message] *)

(** The integer nearest to [num / den], for [num >= 0]; a tie goes to the
    even neighbour. *)
Definition round_half_even (num : Z) (den : positive) : Z :=
  let q := num / Z.pos den in
  match 2 * (num mod Z.pos den) ?= Z.pos den with
  | Lt => q
  | Gt => q + 1
  | Eq => if Z.even q then q else q + 1
  end.

(** [m * 2^e] in thousandths, rounded to the nearest. *)
Definition thousandths (m : positive) (e : Z) : Z :=
  match e with
  | Z.neg k => round_half_even (1000 * Z.pos m) (2 ^ k)
  | _ => 1000 * Z.pos m * 2 ^ e
  end.

Definition digit_char (k : Z) : ascii :=
  match k with
  | 0 => "0" | 1 => "1" | 2 => "2" | 3 => "3" | 4 => "4"
  | 5 => "5" | 6 => "6" | 7 => "7" | 8 => "8" | _ => "9"
  end%char.

(** [n] thousandths in decimal: the integer part, a point, three digits. *)
Definition fixed3 (n : Z) : string :=
  NilEmpty.string_of_uint (N.to_uint (Z.to_N (n / 1000)))
  +:+ String "."
        (String (digit_char (n / 100 mod 10))
           (String (digit_char (n / 10 mod 10))
              (String (digit_char (n mod 10)) ""))).

(** [format(x, '.3f')] on a float: the exact value correctly rounded to
    three decimals, the sign kept even when the digits are all zero. *)
Definition float_format_3f (x : float) : string :=
  match Prim2SF x with
  | S754_nan => "nan"
  | S754_infinity s => if s then "-inf" else "inf"
  | S754_zero s => (if s then "-" else "") +:+ "0.000"
  | S754_finite s m e => (if s then "-" else "") +:+ fixed3 (thousandths m e)
  end.

(** A replacement field [{name:.3f}]: an integer is converted to a float
    first. *)
Definition format_3f (v : value) : result string :=
  x ← to_float v;
  mret (float_format_3f x).

(** [message_template.format(...)], the fields formatted in the order of the
    template. *)
Definition get_message (info : InfoMessage) : result string :=
  duration_field ← format_3f (duration info);
  distance_field ← format_3f (distance info);
  speed_field ← format_3f (speed info);
  calories_field ← format_3f (calories info);
  mret ("Тип тренировки: " +:+ training_type info +:+ "; "
        +:+ "Длительность: " +:+ duration_field +:+ " ч.; "
        +:+ "Дистанция: " +:+ distance_field +:+ " км; "
        +:+ "Ср. скорость: " +:+ speed_field +:+ " км/ч; "
        +:+ "Потрачено ккал: " +:+ calories_field +:+ ".").

(** ** Standard output, [main] and the driver *)

(** A computation that prints: it runs on the lines printed so far. *)
Definition IO (A : Type) : Type := list string → result A * list string.

#[export] Instance IO_ret : MRet IO := λ A a out, (Ok a, out).
#[export] Instance IO_bind : MBind IO := λ A B f m out,
  match m out with
  | (Ok a, out') => f a out'
  | (Raise e, out') => (Raise e, out')
  end.

Definition lift_io {A} (r : result A) : IO A := λ out, (r, out).

Definition print (line : string) : IO unit := λ out, (Ok (), out ++ [line]).

Definition main (training : object) : IO unit :=
  info ← lift_io (returned show_training_info training);
  message ← lift_io (get_message info);
  print message.

(** The packages of the driver. *)
Definition swimming_package : list value :=
  [VInt 720; VInt 1; VInt 80; VInt 25; VInt 40].
Definition running_package : list value := [VInt 15000; VInt 1; VInt 75].
Definition walking_package : list value :=
  [VInt 9000; VInt 1; VInt 75; VInt 180].

Definition packages : list (string * list value) :=
  [("SWM", swimming_package); ("RUN", running_package); ("WLK", walking_package)].

(** The loop of the driver: an exception ends the run, what was printed
    stays printed. *)
Fixpoint run_packages (pkgs : list (string * list value)) : IO unit :=
  match pkgs with
  | [] => mret ()
  | (workout_type, data) :: rest =>
      training ← lift_io (read_package workout_type data);
      main training;;
      run_packages rest
  end.

(** ** The instances the constructors build *)

Definition Running_object (action duration weight : value) : object :=
  Object Running
    (<["weight_kg" := weight]>
    (<["duration_hour" := duration]>
    (<["action_times" := action]> ∅))).

Definition SportsWalking_object (action duration weight height_m : value)
    : object :=
  Object SportsWalking
    (<["height_cm" := height_m]>
    (<["weight_kg" := weight]>
    (<["duration_hour" := duration]>
    (<["action_times" := action]> ∅)))).

Definition Swimming_object
    (action duration weight length_pool count_pool : value) : object :=
  Object Swimming
    (<["count_pool_times" := count_pool]>
    (<["length_pool_meters" := length_pool]>
    (<["weight_kg" := weight]>
    (<["duration_hour" := duration]>
    (<["action_times" := action]> ∅))))).

(** ** Formulas of the specification *)

(** [action_count * step_length_m / 1000] *)
Definition distance_km (action_count step_length_m : value) : result value :=
  steps ← py_mul action_count step_length_m;
  py_truediv steps (VInt 1000).

(** The default mean speed: [distance / duration_hours]. *)
Definition base_mean_speed_kmh (action_count step_length_m duration_hours : value)
    : result value :=
  dist ← distance_km action_count step_length_m;
  py_truediv dist duration_hours.

(** [pool_length_m * pool_laps / 1000 / duration_hours] *)
Definition swimming_mean_speed_kmh (pool_length_m pool_laps duration_hours : value)
    : result value :=
  swum ← py_mul pool_length_m pool_laps;
  km ← py_truediv swum (VInt 1000);
  py_truediv km duration_hours.

(** [(mean_speed_kmh + 1.1) * 2 * weight_kg * duration_hours] *)
Definition swimming_calories
    (pool_length_m pool_laps duration_hours weight_kg : value) : result value :=
  mean_speed_kmh ← swimming_mean_speed_kmh pool_length_m pool_laps duration_hours;
  shifted ← py_add mean_speed_kmh (VFloat 1.1);
  doubled ← py_mul shifted (VInt 2);
  weighted ← py_mul doubled weight_kg;
  py_mul weighted duration_hours.

(** [(18 * mean_speed_kmh + 1.79) * weight_kg / 1000 * (duration_hours * 60)] *)
Definition running_calories (action_count duration_hours weight_kg : value)
    : result value :=
  mean_speed_kmh ← base_mean_speed_kmh action_count (VFloat 0.65) duration_hours;
  scaled ← py_mul (VInt 18) mean_speed_kmh;
  shifted ← py_add scaled (VFloat 1.79);
  weighted ← py_mul shifted weight_kg;
  per_minute ← py_truediv weighted (VInt 1000);
  minutes ← py_mul duration_hours (VInt 60);
  py_mul per_minute minutes.

(** [(0.035 * weight_kg + ((0.278 * mean_speed_kmh)^2 / height_m) * 0.029
    * weight_kg) * (duration_hours * 60)], the mean speed being the default
    one with the 0.65 m step. *)
Definition walking_calories
    (action_count duration_hours weight_kg height_m : value) : result value :=
  mean_speed_kmh ← base_mean_speed_kmh action_count (VFloat 0.65) duration_hours;
  speed_m_per_s ← py_mul (VFloat 0.278) mean_speed_kmh;
  rest ← py_mul (VFloat 0.035) weight_kg;
  squared ← py_pow speed_m_per_s (VInt 2);
  ratio ← py_truediv squared height_m;
  scaled ← py_mul ratio (VFloat 0.029);
  moving ← py_mul scaled weight_kg;
  per_minute ← py_add rest moving;
  minutes ← py_mul duration_hours (VInt 60);
  py_mul per_minute minutes.

(** The variant a tag of the closed set stands for. *)
Definition variant_of_tag (tag : string) : option cls :=
  if decide (tag = "SWM") then Some Swimming
  else if decide (tag = "RUN") then Some Running
  else if decide (tag = "WLK") then Some SportsWalking
  else None.

(** ** Read-only computations *)

(** A computation that leaves [self] as it found it. *)
Definition readonly {A} (m : Py A) : Prop :=
  ∀ self, state_after m self = self.

(** ** Workouts *)

(** [workout c data self]: [self] is the instance the constructor of [c]
    builds from the measurements [data]. *)
Inductive workout : cls → list value → object → Prop :=
| workout_Running a d w :
    workout Running [a; d; w] (Running_object a d w)
| workout_SportsWalking a d w h height_m :
    py_truediv h (VInt 100) = Ok height_m →
    workout SportsWalking [a; d; w; h] (SportsWalking_object a d w height_m)
| workout_Swimming a d w l n :
    workout Swimming [a; d; w; l; n] (Swimming_object a d w l n).

(** An operation that can be repeated: it leaves [self] alone, and run again
    on what it left it returns the same. *)
Definition repeatable {A} (m : Py A) : Prop :=
  ∀ self,
    state_after m self = self ∧
    returned m (state_after m self) = returned m self.

(** ** Exceptions, arity, and reading a rendered field back *)

(** Every exception [r] can raise satisfies [P]. *)
Definition raises_in {A} (P : exn → Prop) (r : result A) : Prop :=
  ∀ e, r = Raise e → P e.

(** The number of measurements the constructor of a class takes. *)
Definition arity (c : cls) : nat :=
  match c with
  | SportsWalking => 4
  | Swimming => 5
  | _ => 3
  end.

(** The value of a decimal digit, from its character code. *)
Definition digit_value (c : ascii) : option Z :=
  let k := Z.of_nat (nat_of_ascii c) - 48 in
  if (0 <=? k) && (k <=? 9) then Some k else None.

(** The text before the first point, and the text after it. *)
Fixpoint split_point (s : string) : option (string * string) :=
  match s with
  | EmptyString => None
  | String c s' =>
      if Ascii.eqb c "." then Some (EmptyString, s')
      else '(before, after) ← split_point s'; Some (String c before, after)
  end.

(** The thousandths that digits, a point and three digits stand for. *)
Definition read_fixed3 (s : string) : option Z :=
  '(whole, fraction) ← split_point s;
  i ← NilEmpty.uint_of_string whole;
  match fraction with
  | String a (String b (String c EmptyString)) =>
      x ← digit_value a; y ← digit_value b; z ← digit_value c;
      Some (Z.of_N (N.of_uint i) * 1000 + 100 * x + 10 * y + z)
  | _ => None
  end.

(** The number a rendered field stands for; none for ["nan"] and ["inf"]. *)
Definition read_3f (s : string) : option Q :=
  match s with
  | EmptyString => None
  | String c s' =>
      if Ascii.eqb c "-" then n ← read_fixed3 s'; Some (- (n # 1000))%Q
      else n ← read_fixed3 s; Some (n # 1000)%Q
  end.

(** The line a package makes the driver print: the factory, the report,
    the rendering. *)
Definition package_line (p : string * list value) : result string :=
  training ← read_package p.1 p.2;
  info ← returned show_training_info training;
  get_message info.

(** The workouts and the reports of the driver's packages. *)
Definition swimming_sample : object :=
  Swimming_object (VInt 720) (VInt 1) (VInt 80) (VInt 25) (VInt 40).
Definition running_sample : object :=
  Running_object (VInt 15000) (VInt 1) (VInt 75).
Definition walking_sample : object :=
  SportsWalking_object (VInt 9000) (VInt 1) (VInt 75) (VFloat 1.8).

Definition swimming_report : InfoMessage :=
  {| training_type := "Swimming"; duration := VInt 1;
     distance := VFloat 0.9935999999999999; speed := VFloat 1;
     calories := VFloat 336 |}.
Definition running_report : InfoMessage :=
  {| training_type := "Running"; duration := VInt 1;
     distance := VFloat 9.75; speed := VFloat 9.75;
     calories := VFloat 797.805 |}.
Definition walking_report : InfoMessage :=
  {| training_type := "SportsWalking"; duration := VInt 1;
     distance := VFloat 5.85; speed := VFloat 5.85;
     calories := VFloat 349.2517475250001 |}.

(** * Properties *)

(** ** The monads of results and of method bodies *)

Lemma result_bind_ok {A B} (a : A) (f : A → result B) : Ok a ≫= f = f a.
Proof. reflexivity. Qed.

Lemma result_bind_raise {A B} e (f : A → result B) : Raise e ≫= f = Raise e.
Proof. reflexivity. Qed.

Lemma result_bind_ext {A B} (r : result A) (f g : A → result B) :
  (∀ a, f a = g a) → r ≫= f = r ≫= g.
Proof. intros Hfg. destruct r; [apply Hfg | done]. Qed.

Lemma result_bind_inv {A B} (r : result A) (f : A → result B) b :
  r ≫= f = Ok b → ∃ a, r = Ok a ∧ f a = Ok b.
Proof. destruct r as [a|e]; [by exists a | done]. Qed.

Lemma bind_run {A B} (m : Py A) (f : A → Py B) self :
  (m ≫= f) self =
    match m self with
    | (Ok a, self') => f a self'
    | (Raise e, self') => (Raise e, self')
    end.
Proof. reflexivity. Qed.

(** ** Read-only bodies *)

Lemma run_readonly {A} (m : Py A) self :
  readonly m → m self = (returned m self, self).
Proof.
  intros Hm. specialize (Hm self). unfold state_after, returned in *.
  destruct (m self) as [r s]; simpl in *. by subst.
Qed.

Lemma readonly_ret {A} (a : A) : readonly (mret a : Py A).
Proof. by intros self. Qed.

Lemma readonly_lift {A} (r : result A) : readonly (lift r).
Proof. by intros self. Qed.

Lemma readonly_getattr name : readonly (getattr name).
Proof.
  intros self. unfold state_after, getattr. by destruct (find_attr self name).
Qed.

Lemma readonly_type_name : readonly type_name.
Proof. by intros self. Qed.

Lemma readonly_bind {A B} (m : Py A) (f : A → Py B) :
  readonly m → (∀ a, readonly (f a)) → readonly (m ≫= f).
Proof.
  intros Hm Hf self. unfold state_after. rewrite bind_run.
  rewrite (run_readonly m self Hm).
  destruct (returned m self) as [a|e]; [apply Hf | done].
Qed.

Lemma readonly_call {A} name (body : cls → option (Py A)) :
  (∀ k f, body k = Some f → readonly f) → readonly (call name body).
Proof.
  intros Hbody self. unfold state_after, call.
  destruct (resolve (ob_class self) name) as [k|]; simpl; [|done].
  destruct (body k) as [f|] eqn:Hf; [|done].
  by apply (Hbody k f).
Qed.

(** The constructors are the writers: an assignment is not read-only. *)
Lemma setattr_not_readonly : ¬ readonly (setattr "duration_hour" (VInt 2)).
Proof.
  intros Hro. specialize (Hro (Object Running ∅)).
  apply (f_equal (λ o, ob_dict o !! "duration_hour")) in Hro. done.
Qed.

Lemma readonly_repeatable {A} (m : Py A) : readonly m → repeatable m.
Proof. intros Hm self. by rewrite Hm. Qed.

Create HintDb py discriminated.
Create Rewrite HintDb py_methods.

(** A body made of attribute reads, operations and read-only calls. *)
Ltac readonly_body :=
  repeat first
    [ apply readonly_getattr | apply readonly_lift | apply readonly_ret
    | apply readonly_type_name | assumption
    | apply readonly_bind; [| intros ?] ].

Lemma readonly_get_distance : readonly get_distance.
Proof.
  apply readonly_call. intros [] f Hf; simplify_eq.
  unfold Training_get_distance, mul, truediv. readonly_body.
Qed.

Lemma readonly_get_mean_speed : readonly get_mean_speed.
Proof.
  pose proof readonly_get_distance.
  apply readonly_call. intros [] f Hf; simplify_eq.
  - unfold Training_get_mean_speed, truediv. readonly_body.
  - unfold Swimming_get_mean_speed, mul, truediv. readonly_body.
Qed.

Lemma readonly_get_spent_calories : readonly get_spent_calories.
Proof.
  pose proof readonly_get_mean_speed.
  apply readonly_call. intros [] f Hf; simplify_eq.
  - unfold Running_get_spent_calories, mul, add, truediv. readonly_body.
  - unfold SportsWalking_get_spent_calories, mul, add, truediv, pow.
    readonly_body.
  - unfold Swimming_get_spent_calories, mul, add. readonly_body.
Qed.

Lemma readonly_show_training_info : readonly show_training_info.
Proof.
  pose proof readonly_get_distance. pose proof readonly_get_mean_speed.
  pose proof readonly_get_spent_calories.
  apply readonly_call. intros [] f Hf; simplify_eq.
  unfold Training_show_training_info. readonly_body.
Qed.

#[local] Hint Resolve readonly_get_distance readonly_get_mean_speed
  readonly_get_spent_calories readonly_show_training_info : py.

(** ** What a read-only body returns *)

Lemma returned_bind {A B} (m : Py A) (f : A → Py B) self :
  readonly m →
  returned (m ≫= f) self = (a ← returned m self; returned (f a) self).
Proof.
  intros Hm. unfold returned at 1. rewrite bind_run, (run_readonly m self Hm).
  by destruct (returned m self).
Qed.

Lemma returned_lift {A} (r : result A) self : returned (lift r) self = r.
Proof. reflexivity. Qed.

Lemma returned_ret {A} (a : A) self : returned (mret a : Py A) self = Ok a.
Proof. reflexivity. Qed.

Lemma returned_getattr name self v :
  find_attr self name = Some v → returned (getattr name) self = Ok v.
Proof. intros Hv. unfold returned, getattr. by rewrite Hv. Qed.

Lemma returned_type_name self :
  returned type_name self = Ok (class_name (ob_class self)).
Proof. reflexivity. Qed.

Lemma returned_call {A} name (body : cls → option (Py A)) self k f :
  resolve (ob_class self) name = Some k → body k = Some f →
  returned (call name body) self = returned f self.
Proof.
  intros Hk Hf. unfold returned, call. rewrite Hk. simpl. by rewrite Hf.
Qed.

(** One step of a body run on a known instance: split a bind, read an
    attribute, perform an operation, use what a called method is known to
    return, or descend under a shared prefix. *)
Ltac py_step :=
  first
    [ rewrite returned_bind by (readonly_body; eauto with py)
    | erewrite returned_getattr by (first [eassumption | reflexivity])
    | rewrite returned_type_name
    | rewrite returned_lift
    | rewrite returned_ret
    | rewrite result_bind_ok
    | progress autorewrite with py_methods
    | apply result_bind_ext; intros ? ];
  cbv beta.

Ltac py_eval := repeat py_step; try reflexivity.

(** ** Method resolution *)

Lemma resolve_get_distance c : resolve c "get_distance" = Some Training.
Proof. by destruct c. Qed.

Lemma resolve_show_training_info c :
  resolve c "show_training_info" = Some Training.
Proof. by destruct c. Qed.

Lemma resolve_get_mean_speed c :
  resolve c "get_mean_speed"
  = Some (if decide (c = Swimming) then Swimming else Training).
Proof. by destruct c. Qed.

Lemma resolve_get_spent_calories c : resolve c "get_spent_calories" = Some c.
Proof. by destruct c. Qed.

Lemma returned_get_distance self :
  returned get_distance self = returned Training_get_distance self.
Proof.
  by apply (returned_call _ _ _ Training); [apply resolve_get_distance|].
Qed.

Lemma returned_get_mean_speed self :
  returned get_mean_speed self =
    if decide (ob_class self = Swimming)
    then returned Swimming_get_mean_speed self
    else returned Training_get_mean_speed self.
Proof.
  unfold get_mean_speed. case_decide as Hc.
  - apply (returned_call _ _ _ Swimming); [|done].
    by rewrite resolve_get_mean_speed, Hc.
  - apply (returned_call _ _ _ Training); [|done].
    rewrite resolve_get_mean_speed. by case_decide.
Qed.

Lemma returned_get_spent_calories self f :
  match ob_class self with
  | Training => None
  | Running => Some Running_get_spent_calories
  | SportsWalking => Some SportsWalking_get_spent_calories
  | Swimming => Some Swimming_get_spent_calories
  end = Some f →
  returned get_spent_calories self = returned f self.
Proof.
  intros Hf. apply (returned_call _ _ _ (ob_class self)); [|done].
  apply resolve_get_spent_calories.
Qed.

(** ** The quantities of a [Running] instance *)

Section RunningInstance.
Context (a d w : value).

Lemma instantiate_Running :
  instantiate Running [a; d; w] = Ok (Running_object a d w).
Proof. reflexivity. Qed.

Lemma get_distance_Running :
  returned get_distance (Running_object a d w) = distance_km a (VFloat 0.65).
Proof.
  rewrite returned_get_distance.
  unfold Training_get_distance, mul, truediv, distance_km. py_eval.
Qed.

#[local] Hint Rewrite get_distance_Running : py_methods.

Lemma Training_get_mean_speed_Running :
  returned Training_get_mean_speed (Running_object a d w)
  = base_mean_speed_kmh a (VFloat 0.65) d.
Proof.
  unfold Training_get_mean_speed, truediv, base_mean_speed_kmh. py_eval.
Qed.

Lemma get_mean_speed_Running :
  returned get_mean_speed (Running_object a d w)
  = base_mean_speed_kmh a (VFloat 0.65) d.
Proof.
  rewrite returned_get_mean_speed. apply Training_get_mean_speed_Running.
Qed.

#[local] Hint Rewrite get_mean_speed_Running : py_methods.

Lemma get_spent_calories_Running :
  returned get_spent_calories (Running_object a d w) = running_calories a d w.
Proof.
  rewrite (returned_get_spent_calories _ Running_get_spent_calories) by done.
  unfold Running_get_spent_calories, mul, add, truediv, running_calories.
  py_eval.
Qed.

End RunningInstance.

(** ** The quantities of a [SportsWalking] instance *)

Section SportsWalkingInstance.
Context (a d w : value).

(** The constructor divides the raw height by [L = 100], and raises when the
    division does. *)
Lemma instantiate_SportsWalking height :
  instantiate SportsWalking [a; d; w; height]
  = (height_m ← py_truediv height (VInt 100);
     mret (SportsWalking_object a d w height_m)).
Proof.
  unfold instantiate. change (is_abstract SportsWalking) with false.
  change (resolve SportsWalking "__init__") with (Some SportsWalking).
  cbv iota beta. unfold constructed, SportsWalking_init.
  rewrite bind_run.
  change (Training_init a d w (Object SportsWalking ∅))
    with (Ok (), Object SportsWalking (ob_dict (Running_object a d w))).
  cbv iota beta. rewrite bind_run. unfold getattr at 1.
  change (find_attr _ "L") with (Some (VInt 100)).
  cbv iota beta. rewrite bind_run. unfold truediv, lift.
  by destruct (py_truediv height (VInt 100)).
Qed.

Context (h : value).

Lemma get_distance_SportsWalking :
  returned get_distance (SportsWalking_object a d w h)
  = distance_km a (VFloat 0.65).
Proof.
  rewrite returned_get_distance.
  unfold Training_get_distance, mul, truediv, distance_km. py_eval.
Qed.

#[local] Hint Rewrite get_distance_SportsWalking : py_methods.

Lemma Training_get_mean_speed_SportsWalking :
  returned Training_get_mean_speed (SportsWalking_object a d w h)
  = base_mean_speed_kmh a (VFloat 0.65) d.
Proof.
  unfold Training_get_mean_speed, truediv, base_mean_speed_kmh. py_eval.
Qed.

Lemma get_mean_speed_SportsWalking :
  returned get_mean_speed (SportsWalking_object a d w h)
  = base_mean_speed_kmh a (VFloat 0.65) d.
Proof.
  rewrite returned_get_mean_speed. apply Training_get_mean_speed_SportsWalking.
Qed.

#[local] Hint Rewrite get_mean_speed_SportsWalking : py_methods.

Lemma get_spent_calories_SportsWalking :
  returned get_spent_calories (SportsWalking_object a d w h)
  = walking_calories a d w h.
Proof.
  rewrite (returned_get_spent_calories _ SportsWalking_get_spent_calories)
    by done.
  unfold SportsWalking_get_spent_calories, mul, add, truediv, pow,
    walking_calories.
  py_eval.
Qed.

End SportsWalkingInstance.

(** ** The quantities of a [Swimming] instance *)

Section SwimmingInstance.
Context (a d w l n : value).

Lemma instantiate_Swimming :
  instantiate Swimming [a; d; w; l; n] = Ok (Swimming_object a d w l n).
Proof. reflexivity. Qed.

Lemma get_distance_Swimming :
  returned get_distance (Swimming_object a d w l n)
  = distance_km a (VFloat 1.38).
Proof.
  rewrite returned_get_distance.
  unfold Training_get_distance, mul, truediv, distance_km. py_eval.
Qed.

#[local] Hint Rewrite get_distance_Swimming : py_methods.

(** [Training]'s mean speed, were it called on a swimmer. *)
Lemma Training_get_mean_speed_Swimming :
  returned Training_get_mean_speed (Swimming_object a d w l n)
  = base_mean_speed_kmh a (VFloat 1.38) d.
Proof.
  unfold Training_get_mean_speed, truediv, base_mean_speed_kmh. py_eval.
Qed.

Lemma get_mean_speed_Swimming :
  returned get_mean_speed (Swimming_object a d w l n)
  = swimming_mean_speed_kmh l n d.
Proof.
  rewrite returned_get_mean_speed. simpl.
  unfold Swimming_get_mean_speed, mul, truediv, swimming_mean_speed_kmh.
  py_eval.
Qed.

#[local] Hint Rewrite get_mean_speed_Swimming : py_methods.

Lemma get_spent_calories_Swimming :
  returned get_spent_calories (Swimming_object a d w l n)
  = swimming_calories l n d w.
Proof.
  rewrite (returned_get_spent_calories _ Swimming_get_spent_calories) by done.
  unfold Swimming_get_spent_calories, mul, add, swimming_calories. py_eval.
Qed.

End SwimmingInstance.

(** ** Construction and the factory *)

Lemma instantiate_workout c data self :
  instantiate c data = Ok self ↔ workout c data self.
Proof.
  split.
  - destruct c; [done|..];
      repeat (destruct data as [|? data]; try done); intros Hi.
    + rewrite instantiate_Running in Hi. simplify_eq. constructor.
    + rewrite instantiate_SportsWalking in Hi.
      apply result_bind_inv in Hi as (hm & Hh & Hi).
      injection Hi as <-. by constructor.
    + rewrite instantiate_Swimming in Hi. simplify_eq. constructor.
  - intros [a d w|a d w h hm Hh|a d w l n].
    + apply instantiate_Running.
    + rewrite instantiate_SportsWalking, Hh. done.
    + apply instantiate_Swimming.
Qed.

Lemma workout_duration c data self :
  workout c data self →
  ∃ d, data !! 1%nat = Some d ∧ find_attr self "duration_hour" = Some d.
Proof. intros [a d w|a d w h hm _|a d w l n]; by exists d. Qed.

Lemma training_data_lookup tag : training_data !! tag = variant_of_tag tag.
Proof.
  unfold training_data, variant_of_tag.
  rewrite !lookup_insert, lookup_empty.
  repeat case_decide; congruence.
Qed.

Lemma read_package_variant tag data :
  read_package tag data =
    match variant_of_tag tag with
    | Some c => instantiate c data
    | None => Raise ValueError
    end.
Proof. unfold read_package. by rewrite training_data_lookup. Qed.

(** ** The report *)

Lemma show_training_info_eval self d :
  find_attr self "duration_hour" = Some d →
  returned show_training_info self =
    (dist ← returned get_distance self;
     mean_speed ← returned get_mean_speed self;
     spent ← returned get_spent_calories self;
     mret {| training_type := class_name (ob_class self);
             duration := d;
             distance := dist;
             speed := mean_speed;
             calories := spent |}).
Proof.
  intros Hd. unfold show_training_info.
  rewrite (returned_call _ _ _ Training Training_show_training_info);
    [|apply resolve_show_training_info|done].
  unfold Training_show_training_info. py_eval.
Qed.

(** The reports of the driver.  The walker's calories square its speed in
    metres per second, 0.278 * 5.85: they are 349.2517475250001 where [pow]
    returns the square rounded once. *)
Lemma swimming_sample_report :
  returned show_training_info swimming_sample = Ok swimming_report.
Proof. vm_compute. reflexivity. Qed.

Lemma running_sample_report :
  returned show_training_info running_sample = Ok running_report.
Proof. vm_compute. reflexivity. Qed.

Lemma walking_sample_calories :
  libm_pow 1.6263000000000001 2 = (2.6448516900000003%float, false) →
  walking_calories (VInt 9000) (VInt 1) (VInt 75) (VFloat 1.8)
  = Ok (VFloat 349.2517475250001).
Proof.
  intros Hpow. unfold walking_calories.
  assert (base_mean_speed_kmh (VInt 9000) (VFloat 0.65) (VInt 1)
          = Ok (VFloat 5.85)) as -> by (vm_compute; reflexivity).
  rewrite result_bind_ok.
  assert (py_mul (VFloat 0.278) (VFloat 5.85)
          = Ok (VFloat 1.6263000000000001)) as -> by (vm_compute; reflexivity).
  rewrite result_bind_ok.
  assert (py_mul (VFloat 0.035) (VInt 75) = Ok (VFloat 2.6250000000000004))
    as -> by (vm_compute; reflexivity).
  rewrite result_bind_ok.
  assert (py_pow (VFloat 1.6263000000000001) (VInt 2)
          = Ok (VFloat 2.6448516900000003)) as ->.
  { unfold py_pow, float_pow2.
    change (is_nan 1.6263000000000001) with false.
    change (is_infinity 1.6263000000000001) with false.
    change (1.6263000000000001 =? 0)%float with false.
    change (abs 1.6263000000000001) with 1.6263000000000001%float.
    change (1.6263000000000001 =? 1)%float with false.
    cbv iota. rewrite Hpow. reflexivity. }
  vm_compute. reflexivity.
Qed.

Lemma walking_sample_report :
  libm_pow 1.6263000000000001 2 = (2.6448516900000003%float, false) →
  returned show_training_info walking_sample = Ok walking_report.
Proof.
  intros Hpow. unfold walking_sample.
  rewrite (show_training_info_eval _ (VInt 1)) by done.
  rewrite get_distance_SportsWalking, get_mean_speed_SportsWalking,
    get_spent_calories_SportsWalking, (walking_sample_calories Hpow).
  vm_compute. reflexivity.
Qed.

(** ** Conversion of integers to floats *)

(** [binary_normalize] rounds a non-zero integer to a valid, non-zero
    binary64 or to an infinity: the mantissa is brought to 53 digits, rounded,
    and brought back to 53 digits when the rounding carried. *)
Lemma digits2_pos_log2 p : Z.pos (digits2_pos p) = Z.log2 (Z.pos p) + 1.
Proof.
  assert (Hsize : ∀ q, digits2_pos q = Pos.size q).
  { induction q; simpl; by f_equal. }
  rewrite Hsize. destruct p; simpl; lia.
Qed.

Lemma digits2_pos_iter_xO p k :
  Z.pos (digits2_pos (Pos.iter xO p k)) = Z.pos (digits2_pos p) + Z.pos k.
Proof.
  induction k as [|k IH] using Pos.peano_ind.
  - simpl. lia.
  - rewrite Pos.iter_succ. simpl digits2_pos. lia.
Qed.

Lemma iter_pos_iter {A} (f : A → A) n x :
  SpecFloat.iter_pos f n x = Pos.iter f x n.
Proof.
  revert x. induction n as [n IH|n IH|]; intros x; simpl.
  - by rewrite !IH, !Pos.iter_swap.
  - by rewrite !IH.
  - done.
Qed.

Lemma shr_m_shr_1 r : 0 ≤ shr_m r → shr_m (shr_1 r) = Z.div2 (shr_m r).
Proof. destruct r as [[|[]|[]] ? ?]; simpl; try done; lia. Qed.

(** Shifting the record right is shifting its mantissa right. *)
Lemma shr_m_iter r n :
  0 ≤ shr_m r → shr_m (Pos.iter shr_1 r n) = Z.shiftr (shr_m r) (Z.pos n).
Proof.
  intros Hr. induction n as [|n IH] using Pos.peano_ind.
  - simpl Pos.iter. rewrite shr_m_shr_1 by done. by rewrite Z.div2_spec.
  - rewrite Pos.iter_succ, shr_m_shr_1, IH.
    + rewrite Z.div2_spec, Z.shiftr_shiftr by lia. f_equal. lia.
    + rewrite IH. by apply Z.shiftr_nonneg.
Qed.

Lemma shr_m_of_loc m l : shr_m (shr_record_of_loc m l) = m.
Proof. by destruct l as [|[]]. Qed.

Lemma fexp_large x : -1021 ≤ x → fexp prec emax x = x - 53.
Proof. unfold fexp, SpecFloat.emin, prec, emax. lia. Qed.

(** A mantissa of at least 53 digits is cut down to exactly 53. *)
Lemma shr_fexp_spec q ex l :
  53 ≤ Z.pos (digits2_pos q) → -1021 ≤ Z.pos (digits2_pos q) + ex →
  ∃ r,
    shr_fexp prec emax (Z.pos q) ex l
    = (r, ex + (Z.pos (digits2_pos q) - 53)) ∧
    shr_m r = Z.shiftr (Z.pos q) (Z.pos (digits2_pos q) - 53).
Proof.
  intros Hd He. unfold shr_fexp. simpl Zdigits2.
  rewrite fexp_large by done.
  replace (Z.pos (digits2_pos q) + ex - 53 - ex)
    with (Z.pos (digits2_pos q) - 53) by lia.
  unfold shr. destruct (Z.pos (digits2_pos q) - 53) as [|k|k] eqn:Hk; [| |lia].
  - eexists. split; [f_equal; lia|]. by rewrite shr_m_of_loc.
  - eexists. split; [reflexivity|].
    rewrite iter_pos_iter, shr_m_iter; rewrite shr_m_of_loc; done.
Qed.

Lemma round_nearest_even_cases m l :
  round_nearest_even m l = m ∨ round_nearest_even m l = m + 1.
Proof.
  unfold round_nearest_even. destruct l as [|[]]; auto.
  destruct (Z.even m); auto.
Qed.

Lemma binary_round_aux_bounded s q ex :
  53 ≤ Z.pos (digits2_pos q) → -52 ≤ ex →
  binary_round_aux prec emax s (Z.pos q) ex loc_Exact = S754_infinity s ∨
  ∃ m e,
    binary_round_aux prec emax s (Z.pos q) ex loc_Exact = S754_finite s m e ∧
    bounded prec emax m e = true.
Proof.
  intros Hd He. unfold binary_round_aux.
  destruct (shr_fexp_spec q ex loc_Exact) as (r1 & -> & Hr1); [done|lia|].
  set (e1 := ex + (Z.pos (digits2_pos q) - 53)).
  set (m1 := round_nearest_even (shr_m r1) (loc_of_shr_record r1)).
  assert (Hlog1 : Z.log2 (shr_m r1) = 52).
  { rewrite Hr1, Z.log2_shiftr by done.
    pose proof (digits2_pos_log2 q). lia. }
  assert (Hm1 : 2 ^ 52 ≤ m1 ≤ 2 ^ 53).
  { assert (0 < shr_m r1).
    { destruct (Z.lt_ge_cases 0 (shr_m r1)) as [|Hle]; [done|].
      apply Z.log2_nonpos in Hle. lia. }
    pose proof (Z.log2_spec (shr_m r1)) as Hs. rewrite Hlog1 in Hs.
    change (Z.succ 52) with 53 in Hs.
    destruct (round_nearest_even_cases (shr_m r1) (loc_of_shr_record r1));
      unfold m1; lia. }
  destruct m1 as [|q1|q1] eqn:Hq1; [lia| |lia].
  assert (Hd1 : 53 ≤ Z.pos (digits2_pos q1) ≤ 54).
  { rewrite digits2_pos_log2.
    pose proof (Z.log2_le_mono _ _ (proj1 Hm1)) as Hlo.
    pose proof (Z.log2_le_mono _ _ (proj2 Hm1)) as Hhi.
    rewrite Z.log2_pow2 in Hlo, Hhi by lia. lia. }
  destruct (shr_fexp_spec q1 e1 loc_Exact) as (r2 & -> & Hr2); [lia|lia|].
  assert (Hlog2 : Z.log2 (shr_m r2) = 52).
  { rewrite Hr2, Z.log2_shiftr by done.
    pose proof (digits2_pos_log2 q1) as Hq.
    assert (Z.pos (digits2_pos q1) = 53 ∨ Z.pos (digits2_pos q1) = 54)
      as [Hc|Hc] by lia; [lia|].
    assert (Z.pos q1 = 2 ^ 53); [|lia].
    assert (2 ^ 53 ≤ Z.pos q1); [|lia].
    replace 53 with (Z.log2 (Z.pos q1)) by lia. apply Z.log2_spec. lia. }
  destruct (shr_m r2) as [|m|m] eqn:Hm2; [done| |done].
  destruct (Z.leb_spec (e1 + (Z.pos (digits2_pos q1) - 53)) (emax - prec));
    [right|by left].
  eexists _, _. split; [reflexivity|].
  unfold bounded, canonical_mantissa.
  rewrite (digits2_pos_log2 m), Hlog2.
  rewrite fexp_large by (unfold e1; lia).
  apply andb_true_intro. split.
  - apply Z.eqb_eq. lia.
  - by apply Z.leb_le.
Qed.

Lemma binary_round_int_bounded s p :
  binary_round prec emax s p 0 = S754_infinity s ∨
  ∃ m e,
    binary_round prec emax s p 0 = S754_finite s m e ∧
    bounded prec emax m e = true.
Proof.
  unfold binary_round, shl_align.
  rewrite fexp_large by lia.
  destruct (Z.pos (digits2_pos p) + 0 - 53 - 0) as [|k|k] eqn:Hk.
  - apply binary_round_aux_bounded; lia.
  - apply binary_round_aux_bounded; lia.
  - apply binary_round_aux_bounded; [|lia].
    rewrite digits2_pos_iter_xO. lia.
Qed.

Lemma SF2Prim_finite_nonzero s m e :
  bounded prec emax m e = true →
  (SF2Prim (S754_finite s m e) =? 0)%float = false.
Proof.
  intros Hb. rewrite FloatAxioms.eqb_spec, Prim2SF_SF2Prim by done.
  by destruct s.
Qed.

(** [float(z)] is zero for [z = 0] only. *)
Lemma float_of_int_nonzero z y :
  z ≠ 0 → float_of_int z = Ok y → (y =? 0)%float = false.
Proof.
  intros Hz. unfold float_of_int, binary_normalize.
  destruct z as [|p|p]; [done|..].
  - destruct (binary_round_int_bounded false p) as [->|(m & e & -> & Hb)];
      [done|].
    intros Hy. injection Hy as <-. exact (SF2Prim_finite_nonzero false m e Hb).
  - destruct (binary_round_int_bounded true p) as [->|(m & e & -> & Hb)];
      [done|].
    intros Hy. injection Hy as <-. exact (SF2Prim_finite_nonzero true m e Hb).
Qed.

Lemma float_pos_nonzero y : (0 <? y)%float = true → (y =? 0)%float = false.
Proof.
  rewrite FloatAxioms.ltb_spec, FloatAxioms.eqb_spec.
  change (Prim2SF 0) with (S754_zero false).
  by destruct (Prim2SF y) as [[]|[]| |[] ? ?].
Qed.

Lemma float_of_int_raises z e : float_of_int z = Raise e → e = OverflowError.
Proof.
  unfold float_of_int.
  destruct (binary_normalize prec emax z 0 false); intros; by simplify_eq.
Qed.

(** ** Division by the duration *)

Lemma to_float_raises v e : to_float v = Raise e → e = OverflowError.
Proof. destruct v; [apply float_of_int_raises | done]. Qed.

Lemma num_positive_not_zero d :
  num_is_positive d = true → num_is_zero d = false.
Proof.
  destruct d as [z|y]; simpl.
  - intros ?%Z.ltb_lt. apply Z.eqb_neq. lia.
  - apply float_pos_nonzero.
Qed.

(** The test [b == 0.0] of the division, on the converted divisor, is the
    test [d == 0] on the divisor. *)
Lemma to_float_zero d y :
  to_float d = Ok y → (y =? 0)%float = num_is_zero d.
Proof.
  destruct d as [z|x]; simpl; [|by intros [= ->]].
  intros Hy. destruct (decide (z = 0)) as [->|Hz].
  - injection Hy as <-. reflexivity.
  - rewrite (float_of_int_nonzero z y Hz Hy).
    symmetry. by apply Z.eqb_neq.
Qed.

Lemma py_truediv_float x d :
  py_truediv (VFloat x) d =
    (y ← to_float d;
     if num_is_zero d then Raise ZeroDivisionError
     else mret (VFloat (x / y)%float)).
Proof.
  unfold py_truediv. simpl.
  destruct (to_float d) as [y|e] eqn:Hy; simpl; [|done].
  by rewrite (to_float_zero d y Hy).
Qed.

(** The distance is a float, unless the action count is an integer too
    large to be one. *)
Lemma distance_km_cases a l :
  (∃ x, distance_km a (VFloat l) = Ok (VFloat x)) ∨
  distance_km a (VFloat l) = Raise OverflowError.
Proof.
  unfold distance_km.
  assert (Hmul : py_mul a (VFloat l)
                 = (x ← to_float a; mret (VFloat (x * l)%float)))
    by (by destruct a).
  rewrite Hmul. destruct (to_float a) as [x|e] eqn:Ha; simpl.
  - left. eexists. reflexivity.
  - right. by rewrite (to_float_raises _ _ Ha).
Qed.

Lemma base_mean_speed_cases a l d :
  (base_mean_speed_kmh a (VFloat l) d = Raise ZeroDivisionError →
   num_is_zero d = true) ∧
  (num_is_zero d = true →
   ∀ dist, distance_km a (VFloat l) = Ok dist →
           base_mean_speed_kmh a (VFloat l) d = Raise ZeroDivisionError) ∧
  (num_is_positive d = true →
   ∀ x y, distance_km a (VFloat l) = Ok (VFloat x) → to_float d = Ok y →
          base_mean_speed_kmh a (VFloat l) d = Ok (VFloat (x / y)%float)).
Proof.
  unfold base_mean_speed_kmh.
  destruct (distance_km_cases a l) as [[x ->]| ->];
    [|rewrite result_bind_raise; by repeat split; intros; simplify_eq].
  rewrite result_bind_ok, py_truediv_float. repeat split.
  - destruct (to_float d) as [y|e] eqn:Hy; simpl.
    + by destruct (num_is_zero d).
    + intros He. by rewrite (to_float_raises _ _ Hy) in He.
  - intros Hz dist _. destruct d as [z|y]; simpl in *.
    + apply Z.eqb_eq in Hz as ->. reflexivity.
    + by rewrite Hz.
  - intros Hpos x' y [= <-] ->. simpl.
    by rewrite (num_positive_not_zero d Hpos).
Qed.

(** What [Training.get_mean_speed] returns on a workout of any class. *)
Lemma workout_default_mean_speed c data self :
  workout c data self →
  ∃ a d l,
    data !! 0%nat = Some a ∧ data !! 1%nat = Some d ∧
    returned get_distance self = distance_km a (VFloat l) ∧
    returned Training_get_mean_speed self
    = base_mean_speed_kmh a (VFloat l) d.
Proof.
  intros [a d w|a d w h hm _|a d w l n].
  - exists a, d, 0.65%float. split; [done|]. split; [done|]. split.
    + apply get_distance_Running.
    + apply Training_get_mean_speed_Running.
  - exists a, d, 0.65%float. split; [done|]. split; [done|]. split.
    + apply get_distance_SportsWalking.
    + apply Training_get_mean_speed_SportsWalking.
  - exists a, d, 1.38%float. split; [done|]. split; [done|]. split.
    + apply get_distance_Swimming.
    + apply Training_get_mean_speed_Swimming.
Qed.

(** * The claims *)

(** C1.  For every Swimming workout, [get_distance] is not overridden: it is
    [Training]'s, and with the step constant of [Swimming] it returns
    [action_count * 1.38 / 1000].  [get_mean_speed] is overridden and returns
    [pool_length_m * pool_laps / 1000 / duration_hours].  The distance reads
    the action count only, the speed the pool and the duration only. *)
Theorem swimming_distance_speed_asymmetry a d w l n :
  ∃ self,
    instantiate Swimming [a; d; w; l; n] = Ok self ∧
    defines Swimming "get_distance" = false ∧
    resolve Swimming "get_distance" = Some Training ∧
    find_attr self "LEN_STEP" = Some (VFloat 1.38) ∧
    returned get_distance self = distance_km a (VFloat 1.38) ∧
    defines Swimming "get_mean_speed" = true ∧
    resolve Swimming "get_mean_speed" = Some Swimming ∧
    returned get_mean_speed self = swimming_mean_speed_kmh l n d.
Proof.
  exists (Swimming_object a d w l n).
  split; [apply instantiate_Swimming|].
  repeat split; try done.
  - apply get_distance_Swimming.
  - apply get_mean_speed_Swimming.
Qed.

(** C2, as the code has it.  For the Swimming record with
    [action_count = 720], [duration_hours = 1], [weight_kg = 80],
    [pool_length_m = 25], [pool_laps = 40]: [get_distance] is
    [720 * 1.38 / 1000], about 0.994 km; [get_mean_speed] is 1.0 km/h;
    [get_spent_calories] is [(1.0 + 1.1) * 2 * 80 * 1 = 336.0]. *)
Theorem swimming_sample_quantities :
  ∃ self,
    read_package "SWM" swimming_package = Ok self ∧
    returned get_distance self = Ok (VFloat 0.9935999999999999) ∧
    approx3 (VFloat 0.9935999999999999) (994 # 1000) = true ∧
    returned get_mean_speed self = Ok (VFloat 1) ∧
    returned get_spent_calories self = Ok (VFloat 336) ∧
    (sum ← py_add (VFloat 1) (VFloat 1.1);
     doubled ← py_mul sum (VInt 2);
     weighted ← py_mul doubled (VInt 80);
     py_mul weighted (VInt 1)) = Ok (VFloat 336).
Proof.
  exists (Swimming_object (VInt 720) (VInt 1) (VInt 80) (VInt 25) (VInt 40)).
  split; [reflexivity|].
  rewrite get_distance_Swimming, get_mean_speed_Swimming,
    get_spent_calories_Swimming.
  repeat split; vm_compute; reflexivity.
Qed.

(** C2, as stated, fails on the distance: for that record [get_distance]
    returns 0.9936, which is not within 0.5 of 0.468. *)
Lemma swimming_sample_distance_not_0468 :
  ∃ self dist,
    read_package "SWM" swimming_package = Ok self ∧
    returned get_distance self = Ok dist ∧
    within (1 # 2) dist (468 # 1000) = false.
Proof.
  exists (Swimming_object (VInt 720) (VInt 1) (VInt 80) (VInt 25) (VInt 40)).
  exists (VFloat 0.9935999999999999).
  split; [reflexivity|].
  rewrite get_distance_Swimming. split; vm_compute; reflexivity.
Qed.

(** C3, as the code has it.  For the Running record with
    [action_count = 15000], [duration_hours = 1], [weight_kg = 75]:
    [get_distance] is 9.75 km, [get_mean_speed] is 9.75 km/h, and
    [get_spent_calories] is [(18 * 9.75 + 1.79) * 75 / 1000 * 60], which is
    797.805. *)
Theorem running_sample_quantities :
  ∃ self,
    read_package "RUN" running_package = Ok self ∧
    returned get_distance self = Ok (VFloat 9.75) ∧
    returned get_mean_speed self = Ok (VFloat 9.75) ∧
    returned get_spent_calories self = Ok (VFloat 797.805) ∧
    (scaled ← py_mul (VInt 18) (VFloat 9.75);
     shifted ← py_add scaled (VFloat 1.79);
     weighted ← py_mul shifted (VInt 75);
     per_minute ← py_truediv weighted (VInt 1000);
     py_mul per_minute (VInt 60)) = Ok (VFloat 797.805) ∧
    approx3 (VFloat 797.805) (797805 # 1000) = true.
Proof.
  exists (Running_object (VInt 15000) (VInt 1) (VInt 75)).
  split; [reflexivity|].
  rewrite get_distance_Running, get_mean_speed_Running,
    get_spent_calories_Running.
  repeat split; vm_compute; reflexivity.
Qed.

(** C4.  [read_package] raises the unrecognised-workout-type error
    ([ValueError]) for every tag outside ["SWM"], ["RUN"], ["WLK"]; for a tag
    of the set it calls the matching class on the spread measurements, whose
    constructor takes them by position. *)
Theorem read_package_dispatch tag data :
  ((tag = "SWM" ∧ read_package tag data = instantiate Swimming data) ∨
   (tag = "RUN" ∧ read_package tag data = instantiate Running data) ∨
   (tag = "WLK" ∧ read_package tag data = instantiate SportsWalking data) ∨
   ((tag ∉ ["SWM"; "RUN"; "WLK"]) ∧ read_package tag data = Raise ValueError)) ∧
  (instantiate Swimming data =
     match data with
     | [action; duration; weight; length_pool; count_pool] =>
         constructed
           (Swimming_init action duration weight length_pool count_pool)
           (Object Swimming ∅)
     | _ => Raise TypeError
     end) ∧
  (instantiate Running data =
     match data with
     | [action; duration; weight] =>
         constructed (Training_init action duration weight) (Object Running ∅)
     | _ => Raise TypeError
     end) ∧
  (instantiate SportsWalking data =
     match data with
     | [action; duration; weight; height] =>
         constructed (SportsWalking_init action duration weight height)
           (Object SportsWalking ∅)
     | _ => Raise TypeError
     end).
Proof.
  split.
  - rewrite read_package_variant. unfold variant_of_tag.
    repeat case_decide; subst; auto.
    do 3 right. split; [|done].
    rewrite !elem_of_cons, elem_of_nil. tauto.
  - repeat split; by repeat (destruct data as [|? data]; try done).
Qed.

(** C5.  For every Walking workout constructed with the raw [height_cm], the
    stored height is [height_cm / 100], and [get_spent_calories] is
    [(0.035 * weight_kg + ((0.278 * mean_speed_kmh)^2 / height_m) * 0.029
    * weight_kg) * (duration_hours * 60)], with the default mean speed
    [action_count * 0.65 / 1000 / duration_hours]. *)
Theorem walking_height_and_calories a d w height_cm self :
  instantiate SportsWalking [a; d; w; height_cm] = Ok self →
  ∃ height_m,
    py_truediv height_cm (VInt 100) = Ok height_m ∧
    find_attr self "height_cm" = Some height_m ∧
    returned get_mean_speed self = base_mean_speed_kmh a (VFloat 0.65) d ∧
    returned get_spent_calories self = walking_calories a d w height_m.
Proof.
  intros Hw%instantiate_workout. inversion Hw as [|? ? ? ? hm Hh|]; subst.
  exists hm. split; [done|]. split; [done|]. split.
  - apply get_mean_speed_SportsWalking.
  - apply get_spent_calories_SportsWalking.
Qed.

(** C6.  For every Running workout with [duration_hours > 0],
    [weight_kg > 0] and [action_count >= 0], [get_distance] is
    [action_count * 0.65 / 1000], the same float for float. *)
Theorem running_distance (action_count : Z) d w :
  0 ≤ action_count →
  num_is_positive d = true →
  num_is_positive w = true →
  ∃ self,
    instantiate Running [VInt action_count; d; w] = Ok self ∧
    find_attr self "LEN_STEP" = Some (VFloat 0.65) ∧
    returned get_distance self = distance_km (VInt action_count) (VFloat 0.65).
Proof.
  intros _ _ _. exists (Running_object (VInt action_count) d w).
  split; [apply instantiate_Running|]. split; [done|].
  apply get_distance_Running.
Qed.

Lemma running_distance_witness :
  0 ≤ 15000 ∧
  num_is_positive (VInt 1) = true ∧
  num_is_positive (VInt 75) = true ∧
  ∃ self,
    instantiate Running [VInt 15000; VInt 1; VInt 75] = Ok self ∧
    find_attr self "LEN_STEP" = Some (VFloat 0.65) ∧
    returned get_distance self = distance_km (VInt 15000) (VFloat 0.65).
Proof.
  split; [lia|]. split; [reflexivity|]. split; [reflexivity|].
  apply (running_distance 15000 (VInt 1) (VInt 75)); [lia | reflexivity | reflexivity].
Defined.


(** C8, as the code has it.  For every workout, the default
    [get_mean_speed] is [get_distance() / duration_hours]; with
    [duration_hours > 0] it never raises a division by zero, and returns the
    quotient whenever [get_distance] returns and the duration converts to a
    float.  It raises a division by zero only when [duration_hours == 0], and
    does so whenever [duration_hours == 0] and [get_distance] returns; the
    one way [get_distance] fails to return is an [OverflowError]. *)
Theorem default_mean_speed c data self d :
  instantiate c data = Ok self →
  data !! 1%nat = Some d →
  returned Training_get_mean_speed self
  = (dist ← returned get_distance self; py_truediv dist d) ∧
  ((∃ x, returned get_distance self = Ok (VFloat x)) ∨
   returned get_distance self = Raise OverflowError) ∧
  (num_is_positive d = true →
   returned Training_get_mean_speed self ≠ Raise ZeroDivisionError ∧
   ∀ x y, returned get_distance self = Ok (VFloat x) → to_float d = Ok y →
          returned Training_get_mean_speed self = Ok (VFloat (x / y)%float)) ∧
  (returned Training_get_mean_speed self = Raise ZeroDivisionError →
   num_is_zero d = true) ∧
  (num_is_zero d = true →
   ∀ dist, returned get_distance self = Ok dist →
           returned Training_get_mean_speed self = Raise ZeroDivisionError).
Proof.
  intros Hw%instantiate_workout Hd.
  destruct (workout_default_mean_speed _ _ _ Hw) as (a & d' & l & _ & Hd' & -> & ->).
  assert (d' = d) as -> by congruence.
  destruct (base_mean_speed_cases a l d) as (Hzde & Hzero & Hpos).
  split; [done|]. split; [apply distance_km_cases|].
  split; [|by split].
  intros Hp. split; [|by apply Hpos].
  intros Hr. apply Hzde in Hr.
  by rewrite (num_positive_not_zero d Hp) in Hr.
Qed.

Lemma default_mean_speed_witness :
  instantiate Running running_package
  = Ok (Running_object (VInt 15000) (VInt 1) (VInt 75)) ∧
  running_package !! 1%nat = Some (VInt 1) ∧
  returned Training_get_mean_speed (Running_object (VInt 15000) (VInt 1) (VInt 75))
  = (dist ← returned get_distance (Running_object (VInt 15000) (VInt 1) (VInt 75));
     py_truediv dist (VInt 1)) ∧
  returned Training_get_mean_speed (Running_object (VInt 15000) (VInt 1) (VInt 75))
  = Ok (VFloat 9.75).
Proof.
  split; [vm_compute; reflexivity|]. split; [vm_compute; reflexivity|].
  destruct (default_mean_speed Running running_package
              (Running_object (VInt 15000) (VInt 1) (VInt 75)) (VInt 1))
    as (Heq & _ & Hpos & _); [vm_compute; reflexivity..|].
  split; [exact Heq|].
  destruct (Hpos eq_refl) as [_ Hval].
  apply (Hval 9.75%float 1%float).
  - rewrite get_distance_Running. vm_compute; reflexivity.
  - vm_compute; reflexivity.
Defined.

(** C8, as stated, fails on "exactly when": with [duration_hours == 0] and an
    action count too large for a float, the default [get_mean_speed] raises
    [OverflowError] from [get_distance], not a division by zero. *)
Lemma default_mean_speed_overflow_not_zero_division :
  ∃ self,
    instantiate Running [VInt (10 ^ 400); VInt 0; VInt 75] = Ok self ∧
    num_is_zero (VInt 0) = true ∧
    returned Training_get_mean_speed self = Raise OverflowError ∧
    returned get_mean_speed self = Raise OverflowError.
Proof.
  exists (Running_object (VInt (10 ^ 400)) (VInt 0) (VInt 75)).
  split; [apply instantiate_Running|]. split; [reflexivity|].
  rewrite get_mean_speed_Running, Training_get_mean_speed_Running.
  split; vm_compute; reflexivity.
Qed.

(** C9.  No operation of a workout mutates it, and every computed quantity
    is a function of its fields: [get_distance], [get_mean_speed],
    [get_spent_calories] and [show_training_info] leave [self] as they found
    it, and called twice they return equal results. *)
Theorem workout_operations_repeatable :
  repeatable get_distance ∧
  repeatable get_mean_speed ∧
  repeatable get_spent_calories ∧
  repeatable show_training_info.
Proof.
  repeat split; apply readonly_repeatable; auto with py.
Qed.

(** C10.  Two Swimming workouts that differ only in the action count have
    equal [get_mean_speed] and equal [get_spent_calories]; in their reports
    only the distance can differ. *)
Theorem swimming_action_count_independent a1 a2 d w l n :
  ∃ self1 self2,
    instantiate Swimming [a1; d; w; l; n] = Ok self1 ∧
    instantiate Swimming [a2; d; w; l; n] = Ok self2 ∧
    returned get_mean_speed self1 = returned get_mean_speed self2 ∧
    returned get_spent_calories self1 = returned get_spent_calories self2 ∧
    ∀ info1 info2,
      returned show_training_info self1 = Ok info1 →
      returned show_training_info self2 = Ok info2 →
      training_type info1 = training_type info2 ∧
      duration info1 = duration info2 ∧
      speed info1 = speed info2 ∧
      calories info1 = calories info2.
Proof.
  exists (Swimming_object a1 d w l n), (Swimming_object a2 d w l n).
  split; [apply instantiate_Swimming|]. split; [apply instantiate_Swimming|].
  rewrite !get_mean_speed_Swimming, !get_spent_calories_Swimming.
  split; [done|]. split; [done|].
  intros info1 info2.
  rewrite !(show_training_info_eval _ d) by done.
  rewrite !get_mean_speed_Swimming, !get_spent_calories_Swimming.
  intros H1 H2.
  apply result_bind_inv in H1 as (dist1 & _ & H1).
  apply result_bind_inv in H2 as (dist2 & _ & H2).
  apply result_bind_inv in H1 as (v1 & Hv1 & H1).
  apply result_bind_inv in H2 as (v2 & Hv2 & H2).
  apply result_bind_inv in H1 as (c1 & Hc1 & H1).
  apply result_bind_inv in H2 as (c2 & Hc2 & H2).
  injection H1 as <-. injection H2 as <-. simpl.
  repeat split; congruence.
Qed.

(** * Further properties *)

(** ** What the operations return and raise *)

Lemma py_truediv_returns_float a b v :
  py_truediv a b = Ok v → ∃ x, v = VFloat x.
Proof.
  assert (Hint : ∀ x y, int_true_divide x y = Ok v → ∃ z, v = VFloat z).
  { intros x y. unfold int_true_divide. case_decide; [done|].
    destruct x; [intros [= <-]; eauto|..];
      destruct (SFdiv _ _ _ _); intros [= <-]; eauto. }
  assert (Hmix : (x ← to_float a; y ← to_float b;
                  if (y =? 0)%float then Raise ZeroDivisionError
                  else mret (VFloat (x / y)%float)) = Ok v → ∃ z, v = VFloat z).
  { destruct (to_float a) as [x|]; [|done]. destruct (to_float b) as [y|]; [|done].
    simpl. destruct (y =? 0)%float; [done|]. intros [= <-]. eauto. }
  destruct a, b; simpl; eauto.
Qed.

Lemma py_mul_float_l x b v : py_mul (VFloat x) b = Ok v → ∃ y, v = VFloat y.
Proof.
  unfold py_mul. simpl. destruct (to_float b); simpl; [|done].
  intros [= <-]. eauto.
Qed.

Lemma py_mul_float_r a y v : py_mul a (VFloat y) = Ok v → ∃ x, v = VFloat x.
Proof.
  destruct a; simpl.
  - destruct (float_of_int z); simpl; [|done]. intros [= <-]. eauto.
  - intros [= <-]. eauto.
Qed.

Lemma py_add_float_l x b v : py_add (VFloat x) b = Ok v → ∃ y, v = VFloat y.
Proof.
  unfold py_add. simpl. destruct (to_float b); simpl; [|done].
  intros [= <-]. eauto.
Qed.

Lemma py_add_float_r a y v : py_add a (VFloat y) = Ok v → ∃ x, v = VFloat x.
Proof.
  destruct a; simpl.
  - destruct (float_of_int z); simpl; [|done]. intros [= <-]. eauto.
  - intros [= <-]. eauto.
Qed.

Lemma py_pow_float x v : py_pow (VFloat x) (VInt 2) = Ok v → ∃ y, v = VFloat y.
Proof.
  simpl. destruct (float_pow2 x); simpl; [|done]. intros [= <-]. eauto.
Qed.

Lemma py_truediv_float_zero x d :
  num_is_zero d = true → py_truediv (VFloat x) d = Raise ZeroDivisionError.
Proof.
  intros Hz. rewrite py_truediv_float, Hz.
  destruct d as [z|y]; simpl in *; [|done].
  apply Z.eqb_eq in Hz as ->. reflexivity.
Qed.

Lemma py_truediv_float_divisor x d v :
  py_truediv (VFloat x) d = Ok v → ∃ y, to_float d = Ok y.
Proof.
  rewrite py_truediv_float. destruct (to_float d) as [y|]; [eauto|done].
Qed.

Section Raises.
Context (P : exn → Prop) (HP : P OverflowError).

Lemma raises_in_bind {A B} (r : result A) (f : A → result B) :
  raises_in P r → (∀ a, r = Ok a → raises_in P (f a)) → raises_in P (r ≫= f).
Proof.
  intros Hr Hf e. destruct r as [a|e']; simpl.
  - by apply Hf.
  - intros [= <-]. by apply Hr.
Qed.

Lemma raises_in_to_float v : raises_in P (to_float v).
Proof. intros e ->%to_float_raises. done. Qed.

Lemma raises_in_mul a b : raises_in P (py_mul a b).
Proof.
  destruct a, b; unfold py_mul; try done;
    repeat (apply raises_in_bind; [apply raises_in_to_float|intros ??]); done.
Qed.

Lemma raises_in_add a b : raises_in P (py_add a b).
Proof.
  destruct a, b; unfold py_add; try done;
    repeat (apply raises_in_bind; [apply raises_in_to_float|intros ??]); done.
Qed.

Lemma raises_in_pow a : raises_in P (py_pow a (VInt 2)).
Proof.
  destruct a as [z|x]; simpl; [done|].
  unfold float_pow2.
  destruct (is_nan x); [done|]. destruct (is_infinity x); [done|].
  destruct (x =? 0)%float; [done|]. destruct (abs x =? 1)%float; [done|].
  destruct (libm_pow (abs x) 2) as [ix erange].
  destruct (if erange then _ else _); [|done].
  intros e [= <-]. done.
Qed.

Lemma raises_in_truediv a b :
  (num_is_zero b = true → P ZeroDivisionError) → raises_in P (py_truediv a b).
Proof.
  intros Hz.
  assert (Hmix : ∀ x, raises_in P (py_truediv (VFloat x) b)).
  { intros x. rewrite py_truediv_float.
    apply raises_in_bind; [apply raises_in_to_float|intros y _].
    destruct (num_is_zero b); [|done]. intros e [= <-]. by apply Hz. }
  destruct a as [x|x]; [|apply Hmix].
  destruct b as [y|y].
  - simpl. unfold int_true_divide. case_decide as Hy.
    + intros e [= <-]. apply Hz. simpl. by apply Z.eqb_eq.
    + destruct x; [done|..]; destruct (SFdiv _ _ _ _); try done;
        by intros e [= <-].
  - unfold py_truediv.
    apply raises_in_bind; [apply raises_in_to_float|intros x' _].
    simpl. destruct (y =? 0)%float eqn:Hy; [|done].
    intros e [= <-]. by apply Hz.
Qed.

Lemma raises_in_truediv_const a z :
  z ≠ 0 → raises_in P (py_truediv a (VInt z)).
Proof.
  intros Hz. apply raises_in_truediv. simpl. intros ?%Z.eqb_eq. done.
Qed.

Ltac raises_step :=
  first
    [ apply raises_in_mul | apply raises_in_add | apply raises_in_pow
    | apply raises_in_truediv_const; lia
    | apply raises_in_truediv; assumption
    | assumption
    | apply raises_in_bind; [|intros ? _] ].

Lemma raises_in_distance_km a l : raises_in P (distance_km a l).
Proof. unfold distance_km. repeat raises_step. Qed.

Context (d : value) (Hd : num_is_zero d = true → P ZeroDivisionError).

Lemma raises_in_base_mean_speed a l : raises_in P (base_mean_speed_kmh a l d).
Proof.
  pose proof (raises_in_distance_km a l).
  unfold base_mean_speed_kmh. repeat raises_step.
Qed.

Lemma raises_in_swimming_mean_speed l n :
  raises_in P (swimming_mean_speed_kmh l n d).
Proof. unfold swimming_mean_speed_kmh. repeat raises_step. Qed.

Lemma raises_in_swimming_calories l n w :
  raises_in P (swimming_calories l n d w).
Proof.
  pose proof (raises_in_swimming_mean_speed l n).
  unfold swimming_calories. repeat raises_step.
Qed.

Lemma raises_in_running_calories a w : raises_in P (running_calories a d w).
Proof.
  pose proof (raises_in_base_mean_speed a (VFloat 0.65)).
  unfold running_calories. repeat raises_step.
Qed.

Lemma raises_in_walking_calories a w hm :
  (num_is_zero hm = true → P ZeroDivisionError) →
  raises_in P (walking_calories a d w hm).
Proof.
  intros Hhm. pose proof (raises_in_base_mean_speed a (VFloat 0.65)).
  unfold walking_calories. repeat raises_step.
Qed.

End Raises.

Create Rewrite HintDb workout.
#[local] Hint Rewrite get_distance_Running get_distance_SportsWalking
  get_distance_Swimming get_mean_speed_Running get_mean_speed_SportsWalking
  get_mean_speed_Swimming get_spent_calories_Running
  get_spent_calories_SportsWalking get_spent_calories_Swimming : workout.

Lemma workout_class c data self : workout c data self → ob_class self = c.
Proof. by intros []. Qed.

Lemma raises_in_show_training_info P self d :
  find_attr self "duration_hour" = Some d →
  raises_in P (returned get_distance self) →
  raises_in P (returned get_mean_speed self) →
  raises_in P (returned get_spent_calories self) →
  raises_in P (returned show_training_info self).
Proof.
  intros Hd H1 H2 H3. rewrite (show_training_info_eval self d Hd).
  repeat (apply raises_in_bind; [done|intros ? _]). done.
Qed.

Lemma workout_raises_in (P : exn → Prop) c data self d :
  P OverflowError →
  workout c data self →
  data !! 1%nat = Some d →
  (num_is_zero d = true → P ZeroDivisionError) →
  (∀ hm, find_attr self "height_cm" = Some hm → num_is_zero hm = true →
         P ZeroDivisionError) →
  raises_in P (returned get_distance self) ∧
  raises_in P (returned get_mean_speed self) ∧
  raises_in P (returned get_spent_calories self) ∧
  raises_in P (returned show_training_info self).
Proof.
  intros HP Hw Hd Hzd Hzh.
  assert (Hdur : find_attr self "duration_hour" = Some d).
  { destruct (workout_duration _ _ _ Hw) as (d' & ? & ?). congruence. }
  assert (H3 : raises_in P (returned get_distance self) ∧
               raises_in P (returned get_mean_speed self) ∧
               raises_in P (returned get_spent_calories self)).
  { destruct Hw as [a d' w|a d' w h hm Hh|a d' w l n];
      simpl in Hd; injection Hd as ->; autorewrite with workout.
    - split; [by apply raises_in_distance_km|].
      split; [by apply raises_in_base_mean_speed|].
      by apply raises_in_running_calories.
    - split; [by apply raises_in_distance_km|].
      split; [by apply raises_in_base_mean_speed|].
      apply raises_in_walking_calories; [done..|]. by apply Hzh.
    - split; [by apply raises_in_distance_km|].
      split; [by apply raises_in_swimming_mean_speed|].
      by apply raises_in_swimming_calories. }
  destruct H3 as (H1 & H2 & H3). repeat split; try done.
  by apply (raises_in_show_training_info P self d).
Qed.

(** X1.  On a constructed workout [get_distance] raises nothing but
    [OverflowError], and [get_mean_speed], [get_spent_calories] and
    [show_training_info] nothing but [OverflowError] and
    [ZeroDivisionError]: no attribute is missing and no operand is of the
    wrong type. *)
Theorem workout_raises_only c data self e :
  instantiate c data = Ok self →
  (returned get_distance self = Raise e → e = OverflowError) ∧
  (returned get_mean_speed self = Raise e ∨
   returned get_spent_calories self = Raise e ∨
   returned show_training_info self = Raise e →
   e = OverflowError ∨ e = ZeroDivisionError).
Proof.
  intros Hw%instantiate_workout.
  destruct (workout_duration _ _ _ Hw) as (d & Hd & _).
  split.
  - destruct (workout_raises_in (λ e, e = OverflowError ∨ e = ZeroDivisionError)
                c data self d) as (_ & H2 & H3 & H4); auto.
    clear H2 H3 H4.
    destruct Hw; autorewrite with workout;
      apply (raises_in_distance_km (λ e, e = OverflowError) eq_refl).
  - destruct (workout_raises_in (λ e, e = OverflowError ∨ e = ZeroDivisionError)
                c data self d) as (_ & H2 & H3 & H4); auto.
    intros [H|[H|H]]; [by apply H2|by apply H3|by apply H4].
Qed.

(** X2.  A [ZeroDivisionError] from [get_mean_speed], [get_spent_calories]
    or [show_training_info] of a constructed workout has one of two causes:
    the duration is zero, or the workout is a walk whose stored height is
    zero. *)
Theorem zero_division_cause c data self :
  instantiate c data = Ok self →
  returned get_mean_speed self = Raise ZeroDivisionError ∨
  returned get_spent_calories self = Raise ZeroDivisionError ∨
  returned show_training_info self = Raise ZeroDivisionError →
  (∃ d, data !! 1%nat = Some d ∧ num_is_zero d = true) ∨
  (∃ hm, c = SportsWalking ∧ find_attr self "height_cm" = Some hm ∧
         num_is_zero hm = true).
Proof.
  intros Hw%instantiate_workout.
  destruct (workout_duration _ _ _ Hw) as (d & Hd & _).
  set (P := λ e, e = ZeroDivisionError →
    (∃ d, data !! 1%nat = Some d ∧ num_is_zero d = true) ∨
    (∃ hm, c = SportsWalking ∧ find_attr self "height_cm" = Some hm ∧
           num_is_zero hm = true)).
  destruct (workout_raises_in P c data self d) as (_ & H2 & H3 & H4);
    try done.
  - intros Hz _. left. eauto.
  - intros hm Hhm Hz _. right. exists hm. split; [|done].
    destruct Hw; [done|done|done].
  - intros [H|[H|H]]; [by apply (H2 _ H)|by apply (H3 _ H)|by apply (H4 _ H)].
Qed.

(** ** A zero duration *)

Lemma base_mean_speed_zero_duration a l d :
  num_is_zero d = true →
  ∃ e, base_mean_speed_kmh a (VFloat l) d = Raise e.
Proof.
  intros Hz. unfold base_mean_speed_kmh.
  destruct (distance_km_cases a l) as [[x ->]| ->]; [|by eexists].
  rewrite result_bind_ok, py_truediv_float_zero by done. by eexists.
Qed.

Lemma swimming_mean_speed_cases l n d :
  (swimming_mean_speed_kmh l n d = Raise ZeroDivisionError →
   num_is_zero d = true) ∧
  (num_is_zero d = true →
   ∃ e, swimming_mean_speed_kmh l n d = Raise e ∧
        ((∃ km, (swum ← py_mul l n; py_truediv swum (VInt 1000)) = Ok km) →
         e = ZeroDivisionError)) ∧
  (num_is_positive d = true →
   ∀ km y, (swum ← py_mul l n; py_truediv swum (VInt 1000)) = Ok (VFloat km) →
           to_float d = Ok y →
           swimming_mean_speed_kmh l n d = Ok (VFloat (km / y)%float)).
Proof.
  unfold swimming_mean_speed_kmh. split; [|split].
  - intros H.
    destruct (decide (num_is_zero d = true)) as [|Hnz]; [done|].
    exfalso. revert H.
    assert (Hr : raises_in (λ e, e = OverflowError)
                   (swum ← py_mul l n; km ← py_truediv swum (VInt 1000);
                    py_truediv km d)).
    { apply raises_in_bind; [by apply raises_in_mul|intros swum _].
      apply raises_in_bind; [by apply raises_in_truediv_const|intros km _].
      by apply raises_in_truediv. }
    intros H. by apply Hr in H.
  - intros Hz. destruct (py_mul l n) as [swum|e];
      [rewrite !result_bind_ok
      |rewrite !result_bind_raise; eexists; split; [done|]; by intros [? [=]]].
    destruct (py_truediv swum (VInt 1000)) as [km|e] eqn:Hkm;
      [rewrite result_bind_ok
      |rewrite result_bind_raise; eexists; split; [done|]; by intros [? [=]]].
    apply py_truediv_returns_float in Hkm as [x ->].
    rewrite py_truediv_float_zero by done. by eexists.
  - intros Hp km y Hkm Hy.
    destruct (py_mul l n) as [swum|e]; [|done].
    rewrite result_bind_ok in *. rewrite Hkm, result_bind_ok.
    rewrite py_truediv_float, Hy, result_bind_ok.
    by rewrite (num_positive_not_zero d Hp).
Qed.

(** X3.  A workout whose duration is zero has no mean speed, no calories
    and no report: [get_mean_speed] and [get_spent_calories] raise the same
    exception, and [show_training_info] raises. *)
Theorem zero_duration_no_report c data self d :
  instantiate c data = Ok self →
  data !! 1%nat = Some d →
  num_is_zero d = true →
  (∃ e, returned get_mean_speed self = Raise e ∧
        returned get_spent_calories self = Raise e) ∧
  (∃ e, returned show_training_info self = Raise e).
Proof.
  intros Hw%instantiate_workout Hd Hz.
  assert (Hdur : find_attr self "duration_hour" = Some d).
  { destruct (workout_duration _ _ _ Hw) as (d' & ? & ?). congruence. }
  assert (Hms : ∃ e, returned get_mean_speed self = Raise e ∧
                     returned get_spent_calories self = Raise e).
  { destruct Hw as [a d' w|a d' w h hm Hh|a d' w l n];
      simpl in Hd; injection Hd as ->; autorewrite with workout.
    - destruct (base_mean_speed_zero_duration a 0.65 d Hz) as [e He].
      exists e. unfold running_calories. by rewrite He.
    - destruct (base_mean_speed_zero_duration a 0.65 d Hz) as [e He].
      exists e. unfold walking_calories. by rewrite He.
    - destruct (swimming_mean_speed_cases l n d) as (_ & Hzero & _).
      destruct (Hzero Hz) as (e & He & _).
      exists e. unfold swimming_calories. by rewrite He. }
  split; [done|]. destruct Hms as (e & He & _).
  rewrite (show_training_info_eval self d Hdur), He.
  destruct (returned get_distance self); by eexists.
Qed.

(** X4.  [Swimming.get_mean_speed] never raises a division by zero when the
    duration is positive; it raises one only when the duration is zero, and
    does so whenever the duration is zero and
    [length_pool * count_pool / 1000] returns. *)
Theorem swimming_mean_speed_zero_division a d w l n self :
  instantiate Swimming [a; d; w; l; n] = Ok self →
  (num_is_positive d = true →
   returned get_mean_speed self ≠ Raise ZeroDivisionError) ∧
  (returned get_mean_speed self = Raise ZeroDivisionError →
   num_is_zero d = true) ∧
  (num_is_zero d = true →
   ∀ km, (swum ← py_mul l n; py_truediv swum (VInt 1000)) = Ok km →
         returned get_mean_speed self = Raise ZeroDivisionError).
Proof.
  rewrite instantiate_Swimming. intros [= <-].
  rewrite get_mean_speed_Swimming.
  destruct (swimming_mean_speed_cases l n d) as (Hzde & Hzero & _).
  split; [|split; [done|]].
  - intros Hp H. apply Hzde in H.
    by rewrite (num_positive_not_zero d Hp) in H.
  - intros Hz km Hkm. destruct (Hzero Hz) as (e & -> & He).
    f_equal. apply He. eauto.
Qed.

Lemma swimming_mean_speed_zero_division_witness :
  instantiate Swimming [VInt 720; VInt 0; VInt 80; VInt 25; VInt 40]
  = Ok (Swimming_object (VInt 720) (VInt 0) (VInt 80) (VInt 25) (VInt 40)) ∧
  returned get_mean_speed
    (Swimming_object (VInt 720) (VInt 0) (VInt 80) (VInt 25) (VInt 40))
  = Raise ZeroDivisionError.
Proof.
  split; [apply instantiate_Swimming|].
  destruct (swimming_mean_speed_zero_division
              (VInt 720) (VInt 0) (VInt 80) (VInt 25) (VInt 40)
              (Swimming_object (VInt 720) (VInt 0) (VInt 80) (VInt 25) (VInt 40)))
    as (_ & _ & Hzero); [apply instantiate_Swimming|].
  apply (Hzero eq_refl (VFloat 1)). vm_compute. reflexivity.
Defined.

(** ** A zero height *)

Lemma float_zero_div y z :
  (y =? 0)%float = true → (z =? 0)%float = false → is_nan z = false →
  ((y / z) =? 0)%float = true.
Proof.
  unfold is_nan.
  rewrite !FloatAxioms.eqb_spec, div_spec.
  change (Prim2SF 0) with (S754_zero false).
  destruct (Prim2SF y) as [[]|[]| |[] ? ?]; try done;
    by destruct (Prim2SF z) as [[]|[]| |[] ? ?].
Qed.

Lemma stored_height_zero h :
  num_is_zero h = true →
  ∃ hm, py_truediv h (VInt 100) = Ok hm ∧ num_is_zero hm = true.
Proof.
  destruct h as [z|y]; simpl.
  - intros ->%Z.eqb_eq. eexists. split; reflexivity.
  - intros Hy. change (float_of_int 100) with (Ok 100%float). simpl.
    change (100 =? 0)%float with false. cbv iota.
    eexists. split; [reflexivity|]. simpl. by apply float_zero_div.
Qed.

Lemma walking_calories_zero_height a d w hm :
  num_is_zero hm = true → ∃ e, walking_calories a d w hm = Raise e.
Proof.
  intros Hz. unfold walking_calories.
  destruct (base_mean_speed_kmh a (VFloat 0.65) d) as [ms|];
    [rewrite result_bind_ok|by eexists].
  destruct (py_mul (VFloat 0.278) ms) as [s|] eqn:Hs;
    [rewrite result_bind_ok|by eexists].
  apply py_mul_float_l in Hs as [x ->].
  destruct (py_mul (VFloat 0.035) w) as [rest|];
    [rewrite result_bind_ok|by eexists].
  destruct (py_pow (VFloat x) (VInt 2)) as [sq|] eqn:Hsq;
    [rewrite result_bind_ok|by eexists].
  apply py_pow_float in Hsq as [y ->].
  rewrite py_truediv_float_zero by done. by eexists.
Qed.

(** X5.  A walk constructed with a height of zero is constructed, but has
    no calories and no report: [get_spent_calories] and
    [show_training_info] raise. *)
Theorem walking_zero_height_no_report a d w h :
  num_is_zero h = true →
  ∃ self,
    instantiate SportsWalking [a; d; w; h] = Ok self ∧
    (∃ e, returned get_spent_calories self = Raise e) ∧
    (∃ e, returned show_training_info self = Raise e).
Proof.
  intros Hz. destruct (stored_height_zero h Hz) as (hm & Hh & Hzm).
  exists (SportsWalking_object a d w hm).
  split; [by rewrite instantiate_SportsWalking, Hh|].
  rewrite get_spent_calories_SportsWalking.
  destruct (walking_calories_zero_height a d w hm Hzm) as [e He].
  split; [by exists e|].
  rewrite (show_training_info_eval _ d) by done.
  rewrite get_spent_calories_SportsWalking, He.
  destruct (returned get_distance _); [|by eexists].
  rewrite result_bind_ok.
  destruct (returned get_mean_speed _); by eexists.
Qed.

(** ** The symmetry of the pool *)

Lemma float_mul_comm x y : (x * y)%float = (y * x)%float.
Proof.
  apply Prim2SF_inj. rewrite !mul_spec. unfold SF64mul, SFmul.
  destruct (Prim2SF x) as [sx|sx| |sx mx ex], (Prim2SF y) as [sy|sy| |sy my ey];
    try rewrite (xorb_comm sx); try rewrite (Pos.mul_comm mx);
    try rewrite (Z.add_comm ex); reflexivity.
Qed.

Lemma py_mul_comm a b : py_mul a b = py_mul b a.
Proof.
  destruct a as [x|x], b as [y|y]; unfold py_mul, to_float.
  - by rewrite Z.mul_comm.
  - destruct (float_of_int x) as [x'|]; [|done].
    by rewrite !result_bind_ok, (float_mul_comm x' y).
  - destruct (float_of_int y) as [y'|]; [|done].
    by rewrite !result_bind_ok, (float_mul_comm x y').
  - by rewrite !result_bind_ok, (float_mul_comm x y).
Qed.

(** X6.  Exchanging the pool length and the lap count of a Swimming workout
    changes neither its mean speed nor its calories. *)
Theorem swimming_pool_symmetry a d w l n :
  ∃ self1 self2,
    instantiate Swimming [a; d; w; l; n] = Ok self1 ∧
    instantiate Swimming [a; d; w; n; l] = Ok self2 ∧
    returned get_mean_speed self1 = returned get_mean_speed self2 ∧
    returned get_spent_calories self1 = returned get_spent_calories self2.
Proof.
  exists (Swimming_object a d w l n), (Swimming_object a d w n l).
  split; [apply instantiate_Swimming|]. split; [apply instantiate_Swimming|].
  rewrite !get_mean_speed_Swimming, !get_spent_calories_Swimming.
  unfold swimming_calories, swimming_mean_speed_kmh.
  by rewrite (py_mul_comm l n).
Qed.

(** ** The factory *)

Lemma variant_of_tag_cases tag c :
  variant_of_tag tag = Some c →
  (tag = "SWM" ∧ c = Swimming) ∨ (tag = "RUN" ∧ c = Running) ∨
  (tag = "WLK" ∧ c = SportsWalking).
Proof. unfold variant_of_tag. repeat case_decide; intros; simplify_eq; auto. Qed.

Lemma height_division_cases h :
  (∃ hm, py_truediv h (VInt 100) = Ok (VFloat hm)) ∨
  (py_truediv h (VInt 100) = Raise OverflowError ∧ ∃ z, h = VInt z).
Proof.
  destruct (py_truediv h (VInt 100)) as [hm|e] eqn:Hh.
  - left. apply py_truediv_returns_float in Hh as Hf. destruct Hf as [x ->]. eauto.
  - right. split.
    + f_equal. revert Hh.
      by apply (raises_in_truediv_const (λ e, e = OverflowError) eq_refl).
    + destruct h as [z|y]; [eauto|].
      rewrite py_truediv_float in Hh. done.
Qed.

(** X7.  For a tag of the closed set, [read_package] raises [TypeError]
    exactly when the number of measurements is not the one the constructor
    takes: 3 for Running, 4 for SportsWalking, 5 for Swimming. *)
Theorem read_package_arity tag c data :
  variant_of_tag tag = Some c →
  read_package tag data = Raise TypeError ↔ length data ≠ arity c.
Proof.
  intros Hc. rewrite read_package_variant, Hc.
  apply variant_of_tag_cases in Hc as [[_ ->]|[[_ ->]|[_ ->]]].
  - by repeat (destruct data as [|? data]; try done).
  - by repeat (destruct data as [|? data]; try done).
  - destruct data as [|a [|d [|w [|h [|x data]]]]]; try done.
    rewrite instantiate_SportsWalking.
    destruct (height_division_cases h) as [[hm ->]|[-> _]]; done.
Qed.

Lemma read_package_arity_witness :
  variant_of_tag "RUN" = Some Running ∧
  (read_package "RUN" [VInt 9000; VInt 1] = Raise TypeError ↔
   length [VInt 9000; VInt 1] ≠ arity Running) ∧
  read_package "RUN" [VInt 9000; VInt 1] = Raise TypeError.
Proof.
  split; [reflexivity|]. split; [|reflexivity].
  apply (read_package_arity "RUN" Running [VInt 9000; VInt 1]). reflexivity.
Defined.

(** X8.  For a tag of the closed set and the right number of measurements,
    [read_package] returns a workout of the class of the tag; the one
    exception is a walk whose height is an integer too large to divide into
    a float, which raises [OverflowError]. *)
Theorem read_package_returns tag c data :
  variant_of_tag tag = Some c →
  length data = arity c →
  (∃ self, read_package tag data = Ok self ∧ ob_class self = c) ∨
  (c = SportsWalking ∧ read_package tag data = Raise OverflowError ∧
   ∃ z, data !! 3%nat = Some (VInt z)).
Proof.
  intros Hc. rewrite read_package_variant, Hc.
  apply variant_of_tag_cases in Hc as [[_ ->]|[[_ ->]|[_ ->]]].
  - destruct data as [|a [|d [|w [|l [|n [|x data]]]]]]; try done.
    intros _. left. eexists. by rewrite instantiate_Swimming.
  - destruct data as [|a [|d [|w [|x data]]]]; try done.
    intros _. left. eexists. by rewrite instantiate_Running.
  - destruct data as [|a [|d [|w [|h [|x data]]]]]; try done.
    intros _. rewrite instantiate_SportsWalking.
    destruct (height_division_cases h) as [[hm ->]|[-> [z ->]]].
    + left. eexists. split; reflexivity.
    + right. eauto.
Qed.

Lemma read_package_returns_witness :
  variant_of_tag "WLK" = Some SportsWalking ∧
  length [VInt 9000; VInt 1; VInt 75; VInt (10 ^ 400)] = arity SportsWalking ∧
  read_package "WLK" [VInt 9000; VInt 1; VInt 75; VInt (10 ^ 400)]
  = Raise OverflowError ∧
  ((∃ self,
      read_package "WLK" [VInt 9000; VInt 1; VInt 75; VInt (10 ^ 400)]
      = Ok self ∧ ob_class self = SportsWalking) ∨
   (SportsWalking = SportsWalking ∧
    read_package "WLK" [VInt 9000; VInt 1; VInt 75; VInt (10 ^ 400)]
    = Raise OverflowError ∧
    ∃ z, [VInt 9000; VInt 1; VInt 75; VInt (10 ^ 400)] !! 3%nat
         = Some (VInt z))).
Proof.
  split; [reflexivity|]. split; [reflexivity|].
  split; [vm_compute; reflexivity|].
  apply (read_package_returns "WLK" SportsWalking
           [VInt 9000; VInt 1; VInt 75; VInt (10 ^ 400)]); reflexivity.
Defined.

(** X9.  A constructed workout holds its measurements by position under the
    attribute names of the constructors, and none of them hides a constant
    of the classes: [M_IN_KM] is 1000, [MINUTES_IN_HOUR] is 60 and
    [LEN_STEP] is 1.38 for Swimming and 0.65 otherwise. *)
Theorem workout_attributes c data self :
  instantiate c data = Ok self →
  ob_class self = c ∧
  find_attr self "action_times" = data !! 0%nat ∧
  find_attr self "duration_hour" = data !! 1%nat ∧
  find_attr self "weight_kg" = data !! 2%nat ∧
  find_attr self "M_IN_KM" = Some (VInt 1000) ∧
  find_attr self "MINUTES_IN_HOUR" = Some (VInt 60) ∧
  find_attr self "LEN_STEP"
  = Some (VFloat (if decide (c = Swimming) then 1.38 else 0.65)) ∧
  (c = Swimming →
   find_attr self "length_pool_meters" = data !! 3%nat ∧
   find_attr self "count_pool_times" = data !! 4%nat).
Proof.
  intros Hw%instantiate_workout.
  destruct Hw as [a d w|a d w h hm Hh|a d w l n]; repeat split; done.
Qed.

Lemma workout_attributes_witness :
  instantiate Swimming swimming_package = Ok swimming_sample ∧
  find_attr swimming_sample "length_pool_meters" = Some (VInt 25) ∧
  find_attr swimming_sample "LEN_STEP" = Some (VFloat 1.38).
Proof.
  split; [reflexivity|].
  destruct (workout_attributes Swimming swimming_package swimming_sample)
    as (_ & _ & _ & _ & _ & _ & Hstep & Hpool); [reflexivity|].
  split; [apply (Hpool eq_refl)|exact Hstep].
Defined.

(** ** The report and the workout *)

(** X10.  The report of a workout the factory built names the class of the
    tag, and its distance, speed and calories are what [get_distance],
    [get_mean_speed] and [get_spent_calories] return. *)
Theorem report_matches_workout tag data self info :
  read_package tag data = Ok self →
  returned show_training_info self = Ok info →
  training_type info
  = (if decide (tag = "SWM") then "Swimming"
     else if decide (tag = "RUN") then "Running" else "SportsWalking") ∧
  returned get_distance self = Ok (distance info) ∧
  returned get_mean_speed self = Ok (speed info) ∧
  returned get_spent_calories self = Ok (calories info).
Proof.
  rewrite read_package_variant.
  destruct (variant_of_tag tag) as [c|] eqn:Hc; [|done].
  intros Hw%instantiate_workout Hinfo.
  destruct (workout_duration _ _ _ Hw) as (d & _ & Hd).
  rewrite (show_training_info_eval _ _ Hd) in Hinfo.
  apply result_bind_inv in Hinfo as (dist & -> & Hinfo).
  apply result_bind_inv in Hinfo as (mean_speed & -> & Hinfo).
  apply result_bind_inv in Hinfo as (spent & -> & Hinfo).
  injection Hinfo as <-. simpl. split; [|done].
  rewrite (workout_class _ _ _ Hw).
  unfold variant_of_tag in Hc. by repeat case_decide; simplify_eq.
Qed.

(** X11.  In the report of a Running or SportsWalking workout the speed is
    the distance divided by the duration. *)
Theorem default_speed_in_report tag data self info :
  read_package tag data = Ok self →
  tag ≠ "SWM" →
  returned show_training_info self = Ok info →
  py_truediv (distance info) (duration info) = Ok (speed info).
Proof.
  rewrite read_package_variant.
  destruct (variant_of_tag tag) as [c|] eqn:Hc; [|done].
  intros Hw%instantiate_workout Htag Hinfo.
  assert (Hcls : c ≠ Swimming).
  { unfold variant_of_tag in Hc. by repeat case_decide; simplify_eq. }
  destruct (workout_duration _ _ _ Hw) as (d & Hdata & Hd).
  rewrite (show_training_info_eval _ _ Hd) in Hinfo.
  apply result_bind_inv in Hinfo as (dist & Hdist & Hinfo).
  apply result_bind_inv in Hinfo as (mean_speed & Hms & Hinfo).
  apply result_bind_inv in Hinfo as (spent & _ & Hinfo).
  injection Hinfo as <-. simpl. clear Hd.
  destruct Hw as [a d' w|a d' w h hm Hh|a d' w l n]; [| |done];
    simpl in Hdata; injection Hdata as ->;
    autorewrite with workout in Hdist, Hms;
    unfold base_mean_speed_kmh in Hms; rewrite Hdist in Hms; done.
Qed.

(** ** The quantities of a report are floats *)

Lemma distance_km_float a l v :
  distance_km a (VFloat l) = Ok v → ∃ x, v = VFloat x.
Proof.
  destruct (distance_km_cases a l) as [[x ->]| ->]; [|done].
  intros [= <-]. eauto.
Qed.

Lemma base_mean_speed_float a l d v :
  base_mean_speed_kmh a (VFloat l) d = Ok v →
  (∃ x, v = VFloat x) ∧ ∃ y, to_float d = Ok y.
Proof.
  unfold base_mean_speed_kmh.
  intros (dist & Hdist & Hv)%result_bind_inv.
  apply distance_km_float in Hdist as [x ->].
  split; [by eapply py_truediv_returns_float|by eapply py_truediv_float_divisor].
Qed.

Lemma swimming_mean_speed_float l n d v :
  swimming_mean_speed_kmh l n d = Ok v →
  (∃ x, v = VFloat x) ∧ ∃ y, to_float d = Ok y.
Proof.
  unfold swimming_mean_speed_kmh.
  intros (swum & _ & Hv)%result_bind_inv.
  apply result_bind_inv in Hv as (km & Hkm & Hv).
  apply py_truediv_returns_float in Hkm as [x ->].
  split; [by eapply py_truediv_returns_float|by eapply py_truediv_float_divisor].
Qed.

Lemma running_calories_float a d w v :
  running_calories a d w = Ok v → ∃ x, v = VFloat x.
Proof.
  unfold running_calories.
  intros (ms & _ & Hv)%result_bind_inv.
  apply result_bind_inv in Hv as (scaled & _ & Hv).
  apply result_bind_inv in Hv as (shifted & _ & Hv).
  apply result_bind_inv in Hv as (weighted & _ & Hv).
  apply result_bind_inv in Hv as (per_minute & Hpm & Hv).
  apply result_bind_inv in Hv as (minutes & _ & Hv).
  apply py_truediv_returns_float in Hpm as [x ->].
  by eapply py_mul_float_l.
Qed.

Lemma swimming_calories_float l n d w v :
  swimming_calories l n d w = Ok v → ∃ x, v = VFloat x.
Proof.
  unfold swimming_calories.
  intros (ms & _ & Hv)%result_bind_inv.
  apply result_bind_inv in Hv as (shifted & Hs & Hv).
  apply result_bind_inv in Hv as (doubled & Hdb & Hv).
  apply result_bind_inv in Hv as (weighted & Hw & Hv).
  apply py_add_float_r in Hs as [x ->].
  apply py_mul_float_l in Hdb as [y ->].
  apply py_mul_float_l in Hw as [z ->].
  by eapply py_mul_float_l.
Qed.

Lemma walking_calories_float a d w hm v :
  walking_calories a d w hm = Ok v → ∃ x, v = VFloat x.
Proof.
  unfold walking_calories.
  intros (ms & _ & Hv)%result_bind_inv.
  apply result_bind_inv in Hv as (s & _ & Hv).
  apply result_bind_inv in Hv as (rest & Hrest & Hv).
  apply result_bind_inv in Hv as (sq & _ & Hv).
  apply result_bind_inv in Hv as (ratio & _ & Hv).
  apply result_bind_inv in Hv as (scaled & _ & Hv).
  apply result_bind_inv in Hv as (moving & _ & Hv).
  apply result_bind_inv in Hv as (per_minute & Hpm & Hv).
  apply result_bind_inv in Hv as (minutes & _ & Hv).
  apply py_mul_float_l in Hrest as [x ->].
  apply py_add_float_l in Hpm as [y ->].
  by eapply py_mul_float_l.
Qed.

Lemma workout_report_floats c data self info :
  workout c data self →
  returned show_training_info self = Ok info →
  (∃ y, to_float (duration info) = Ok y) ∧
  (∃ x, distance info = VFloat x) ∧
  (∃ x, speed info = VFloat x) ∧
  (∃ x, calories info = VFloat x).
Proof.
  intros Hw Hinfo.
  destruct (workout_duration _ _ _ Hw) as (d & Hdata & Hd).
  rewrite (show_training_info_eval _ _ Hd) in Hinfo.
  apply result_bind_inv in Hinfo as (dist & Hdist & Hinfo).
  apply result_bind_inv in Hinfo as (mean_speed & Hms & Hinfo).
  apply result_bind_inv in Hinfo as (spent & Hspent & Hinfo).
  injection Hinfo as <-. simpl. clear Hd.
  destruct Hw as [a d' w|a d' w h hm Hh|a d' w l n];
    simpl in Hdata; injection Hdata as ->;
    autorewrite with workout in Hdist, Hms, Hspent.
  - apply distance_km_float in Hdist. apply base_mean_speed_float in Hms as [??].
    apply running_calories_float in Hspent. done.
  - apply distance_km_float in Hdist. apply base_mean_speed_float in Hms as [??].
    apply walking_calories_float in Hspent. done.
  - apply distance_km_float in Hdist.
    apply swimming_mean_speed_float in Hms as [??].
    apply swimming_calories_float in Hspent. done.
Qed.

(** X12.  In every report the distance, the speed and the calories are
    floats, whatever the types of the measurements. *)
Theorem report_quantities_are_floats c data self info :
  instantiate c data = Ok self →
  returned show_training_info self = Ok info →
  (∃ x, distance info = VFloat x) ∧
  (∃ x, speed info = VFloat x) ∧
  (∃ x, calories info = VFloat x).
Proof.
  intros Hw%instantiate_workout Hinfo.
  by destruct (workout_report_floats _ _ _ _ Hw Hinfo) as (_ & ? & ? & ?).
Qed.

(** ** Rendering *)

Lemma digit_value_char k : 0 ≤ k < 10 → digit_value (digit_char k) = Some k.
Proof.
  intros Hk.
  assert (k = 0 ∨ k = 1 ∨ k = 2 ∨ k = 3 ∨ k = 4 ∨ k = 5 ∨ k = 6 ∨ k = 7
          ∨ k = 8 ∨ k = 9) as Hc by lia.
  repeat (destruct Hc as [->|Hc]; [reflexivity|]). by subst.
Qed.

Lemma split_point_digits d rest :
  split_point (NilEmpty.string_of_uint d +:+ String "." rest)
  = Some (NilEmpty.string_of_uint d, rest).
Proof. induction d; simpl; rewrite ?IHd; reflexivity. Qed.

Lemma read_fixed3_fixed3 n : 0 ≤ n → read_fixed3 (fixed3 n) = Some n.
Proof.
  intros Hn. unfold read_fixed3, fixed3.
  rewrite split_point_digits. simpl.
  rewrite NilEmpty.usu. simpl.
  rewrite !digit_value_char by (apply Z.mod_pos_bound; lia). simpl.
  rewrite DecimalN.Unsigned.of_to, Z2N.id by (apply Z.div_pos; lia).
  f_equal. Z.div_mod_to_equations. lia.
Qed.

Lemma read_3f_fixed3 n : 0 ≤ n → read_3f (fixed3 n) = Some (n # 1000)%Q.
Proof.
  intros Hn. pose proof (read_fixed3_fixed3 n Hn) as Hr.
  unfold read_3f. unfold fixed3 in *.
  destruct (N.to_uint (Z.to_N (n / 1000))); simpl in *; by rewrite Hr.
Qed.

Lemma read_3f_minus_fixed3 n :
  0 ≤ n → read_3f ("-" +:+ fixed3 n) = Some (- (n # 1000))%Q.
Proof.
  intros Hn. change ("-" +:+ fixed3 n) with (String "-" (fixed3 n)).
  unfold read_3f. change (Ascii.eqb "-" "-") with true. cbv iota.
  by rewrite read_fixed3_fixed3.
Qed.

(** ** Rounding to thousandths *)

Lemma round_half_even_spec num den :
  0 ≤ num →
  0 ≤ round_half_even num den ∧
  Z.abs (2 * (round_half_even num den * Z.pos den - num)) ≤ Z.pos den.
Proof.
  intros Hnum. unfold round_half_even.
  pose proof (Z.div_mod num (Z.pos den) ltac:(lia)) as Hdm.
  pose proof (Z.mod_pos_bound num (Z.pos den) ltac:(lia)) as Hr.
  assert (0 ≤ num / Z.pos den) as Hq by (apply Z.div_pos; lia).
  set (q := num / Z.pos den) in *. set (r := num mod Z.pos den) in *.
  destruct (Z.compare_spec (2 * r) (Z.pos den)); [destruct (Z.even q)|..];
    split; nia.
Qed.

Lemma Qpower_2_neg k : ((2:Q) ^ Z.neg k == 1 # (2 ^ k))%Q.
Proof.
  change ((2:Q) ^ Z.neg k)%Q with (/ (inject_Z 2) ^ Z.pos k)%Q.
  rewrite <- Zpower_Qpower by lia.
  rewrite <- Pos2Z.inj_pow. reflexivity.
Qed.

Lemma thousandths_accurate m e :
  0 ≤ thousandths m e ∧
  (Qabs ((thousandths m e # 1000) - inject_Z (Z.pos m) * 2 ^ e) <= 1 # 2000)%Q.
Proof.
  destruct e as [|p|k]; unfold thousandths.
  - split; [lia|]. apply Qabs_Qle_condition.
    unfold Qle, Qminus, Qplus, Qopp, Qmult, inject_Z; simpl. lia.
  - split; [lia|]. change (2:Q)%Q with (inject_Z 2).
    rewrite <- Zpower_Qpower by lia. apply Qabs_Qle_condition.
    unfold Qle, Qminus, Qplus, Qopp, Qmult, inject_Z; simpl.
    pose proof (Z.pow_pos_nonneg 2 (Z.pos p)). lia.
  - destruct (round_half_even_spec (1000 * Z.pos m) (2 ^ k)) as [Hn Ha]; [lia|].
    split; [done|]. rewrite Qpower_2_neg. apply Qabs_Qle_condition.
    unfold Qle, Qminus, Qplus, Qopp, Qmult, inject_Z; simpl.
    rewrite ?Pos2Z.inj_mul. nia.
Qed.

(** A finite float rendered with [.3f] reads back as a number within 0.0005
    of it. *)
Lemma format_3f_accurate x q :
  float_to_Q x = Some q →
  ∃ r, read_3f (float_format_3f x) = Some r ∧ (Qabs (r - q) <= 1 # 2000)%Q.
Proof.
  unfold float_to_Q, float_format_3f.
  destruct (Prim2SF x) as [s|s| |s m e]; try done; intros [= <-].
  - destruct s; (eexists; split; [reflexivity|done]).
  - destruct (thousandths_accurate m e) as [Hn Ha]. destruct s.
    + exists (- (thousandths m e # 1000))%Q.
      split; [by apply read_3f_minus_fixed3|].
      change (inject_Z (cond_Zopp true (Z.pos m)))
        with (- inject_Z (Z.pos m))%Q.
      assert (E : (- (thousandths m e # 1000) - - inject_Z (Z.pos m) * 2 ^ e
                   == - ((thousandths m e # 1000) - inject_Z (Z.pos m) * 2 ^ e))%Q)
        by ring.
      by rewrite E, Qabs_opp.
    + exists (thousandths m e # 1000)%Q.
      split; [by apply read_3f_fixed3|done].
Qed.

(** X13.  The message of [get_message] is the template filled with the type
    of the workout and four fields, each the [.3f] rendering of the float of
    its quantity: the quantity itself when it is a float, the nearest float
    when it is an int.  A field whose float is finite reads back as a number
    within 0.0005 of that float: it shows it rounded to the nearest
    thousandth. *)
Theorem message_fields_rounded info message :
  get_message info = Ok message →
  ∃ duration_f distance_f speed_f calories_f,
    to_float (duration info) = Ok duration_f ∧
    to_float (distance info) = Ok distance_f ∧
    to_float (speed info) = Ok speed_f ∧
    to_float (calories info) = Ok calories_f ∧
    message =
      "Тип тренировки: " +:+ training_type info +:+ "; "
      +:+ "Длительность: " +:+ float_format_3f duration_f +:+ " ч.; "
      +:+ "Дистанция: " +:+ float_format_3f distance_f +:+ " км; "
      +:+ "Ср. скорость: " +:+ float_format_3f speed_f +:+ " км/ч; "
      +:+ "Потрачено ккал: " +:+ float_format_3f calories_f +:+ "." ∧
    Forall
      (λ x, ∀ q, float_to_Q x = Some q →
                 ∃ r, read_3f (float_format_3f x) = Some r ∧
                      (Qabs (r - q) <= 1 # 2000)%Q)
      [duration_f; distance_f; speed_f; calories_f].
Proof.
  unfold get_message, format_3f. intros Hm.
  apply result_bind_inv in Hm as (f1 & H1 & Hm).
  apply result_bind_inv in H1 as (x1 & H1 & [= <-]).
  apply result_bind_inv in Hm as (f2 & H2 & Hm).
  apply result_bind_inv in H2 as (x2 & H2 & [= <-]).
  apply result_bind_inv in Hm as (f3 & H3 & Hm).
  apply result_bind_inv in H3 as (x3 & H3 & [= <-]).
  apply result_bind_inv in Hm as (f4 & H4 & Hm).
  apply result_bind_inv in H4 as (x4 & H4 & [= <-]).
  injection Hm as <-.
  exists x1, x2, x3, x4. repeat (split; [done|]).
  repeat constructor; apply format_3f_accurate.
Qed.

Lemma message_fields_rounded_witness :
  get_message swimming_report
  = Ok "Тип тренировки: Swimming; Длительность: 1.000 ч.; Дистанция: 0.994 км; Ср. скорость: 1.000 км/ч; Потрачено ккал: 336.000." ∧
  ∃ duration_f distance_f speed_f calories_f,
    to_float (VInt 1) = Ok duration_f ∧
    to_float (VFloat 0.9935999999999999) = Ok distance_f ∧
    to_float (VFloat 1) = Ok speed_f ∧
    to_float (VFloat 336) = Ok calories_f ∧
    "Тип тренировки: Swimming; Длительность: 1.000 ч.; Дистанция: 0.994 км; Ср. скорость: 1.000 км/ч; Потрачено ккал: 336.000." =
      "Тип тренировки: " +:+ "Swimming" +:+ "; "
      +:+ "Длительность: " +:+ float_format_3f duration_f +:+ " ч.; "
      +:+ "Дистанция: " +:+ float_format_3f distance_f +:+ " км; "
      +:+ "Ср. скорость: " +:+ float_format_3f speed_f +:+ " км/ч; "
      +:+ "Потрачено ккал: " +:+ float_format_3f calories_f +:+ "." ∧
    Forall
      (λ x, ∀ q, float_to_Q x = Some q →
                 ∃ r, read_3f (float_format_3f x) = Some r ∧
                      (Qabs (r - q) <= 1 # 2000)%Q)
      [duration_f; distance_f; speed_f; calories_f].
Proof.
  split; [vm_compute; reflexivity|].
  apply (message_fields_rounded swimming_report). vm_compute. reflexivity.
Defined.

(** X14.  The report of a constructed workout always renders:
    [get_message] does not raise on it. *)
Theorem report_renders c data self info :
  instantiate c data = Ok self →
  returned show_training_info self = Ok info →
  ∃ message, get_message info = Ok message.
Proof.
  intros Hw%instantiate_workout Hinfo.
  destruct (workout_report_floats _ _ _ _ Hw Hinfo)
    as ([y Hy] & [x1 H1] & [x2 H2] & [x3 H3]).
  unfold get_message, format_3f. rewrite Hy, H1, H2, H3. simpl.
  eexists. reflexivity.
Qed.

(** ** The driver *)

Lemma io_bind_run {A B} (m : IO A) (f : A → IO B) out :
  (m ≫= f) out =
    match m out with
    | (Ok a, out') => f a out'
    | (Raise e, out') => (Raise e, out')
    end.
Proof. reflexivity. Qed.

Lemma run_packages_cons p rest out :
  run_packages (p :: rest) out =
    match package_line p with
    | Ok line => run_packages rest (out ++ [line])
    | Raise e => (Raise e, out)
    end.
Proof.
  destruct p as [workout_type data].
  unfold package_line. cbn [run_packages fst snd].
  rewrite io_bind_run. unfold lift_io at 1.
  destruct (read_package workout_type data) as [training|e];
    [rewrite result_bind_ok|done].
  rewrite io_bind_run. unfold main. rewrite io_bind_run. unfold lift_io at 1.
  destruct (returned show_training_info training) as [info|e];
    [rewrite result_bind_ok|done].
  rewrite io_bind_run. unfold lift_io at 1.
  destruct (get_message info) as [line|e]; done.
Qed.

(** What the script prints, where [pow] returns the walker's squared speed
    rounded once. *)
Lemma run_packages_prints :
  libm_pow 1.6263000000000001 2 = (2.6448516900000003%float, false) →
  run_packages packages [] =
    (Ok (),
     [ "Тип тренировки: Swimming; Длительность: 1.000 ч.; Дистанция: 0.994 км; Ср. скорость: 1.000 км/ч; Потрачено ккал: 336.000.";
       "Тип тренировки: Running; Длительность: 1.000 ч.; Дистанция: 9.750 км; Ср. скорость: 9.750 км/ч; Потрачено ккал: 797.805.";
       "Тип тренировки: SportsWalking; Длительность: 1.000 ч.; Дистанция: 5.850 км; Ср. скорость: 5.850 км/ч; Потрачено ккал: 349.252." ]).
Proof.
  intros Hpow. unfold packages.
  assert (Hline : ∀ tag data self info line,
            read_package tag data = Ok self →
            returned show_training_info self = Ok info →
            get_message info = Ok line →
            package_line (tag, data) = Ok line).
  { intros tag data self info line Hself Hinfo Hline. unfold package_line.
    cbn [fst snd]. by rewrite Hself, result_bind_ok, Hinfo, result_bind_ok. }
  rewrite run_packages_cons,
    (Hline "SWM" swimming_package swimming_sample swimming_report
       "Тип тренировки: Swimming; Длительность: 1.000 ч.; Дистанция: 0.994 км; Ср. скорость: 1.000 км/ч; Потрачено ккал: 336.000.");
    [|vm_compute; reflexivity|apply swimming_sample_report|vm_compute; reflexivity].
  rewrite run_packages_cons,
    (Hline "RUN" running_package running_sample running_report
       "Тип тренировки: Running; Длительность: 1.000 ч.; Дистанция: 9.750 км; Ср. скорость: 9.750 км/ч; Потрачено ккал: 797.805.");
    [|vm_compute; reflexivity|apply running_sample_report|vm_compute; reflexivity].
  rewrite run_packages_cons,
    (Hline "WLK" walking_package walking_sample walking_report
       "Тип тренировки: SportsWalking; Длительность: 1.000 ч.; Дистанция: 5.850 км; Ср. скорость: 5.850 км/ч; Потрачено ккал: 349.252.");
    [|vm_compute; reflexivity|apply (walking_sample_report Hpow)
     |vm_compute; reflexivity].
  reflexivity.
Qed.

(** X15.  The driver prints the lines of its packages in order, after what
    was printed before, as long as each package gives a line; at the first
    package that raises it stops with that exception, the lines of the
    packages before it printed and nothing more. *)
Theorem run_packages_lines pre lines out :
  Forall2 (λ p line, package_line p = Ok line) pre lines →
  run_packages pre out = (Ok (), out ++ lines) ∧
  ∀ p e post,
    package_line p = Raise e →
    run_packages (pre ++ p :: post) out = (Raise e, out ++ lines).
Proof.
  intros Hpre. revert out.
  induction Hpre as [|p line pre lines Hp _ IH]; intros out.
  - rewrite app_nil_r. split; [done|].
    intros p e post Hp. simpl app. by rewrite run_packages_cons, Hp.
  - destruct (IH (out ++ [line])) as [IH1 IH2].
    rewrite <- app_assoc in IH1. simpl in IH1. split.
    + by rewrite run_packages_cons, Hp.
    + intros p' e post Hp'. rewrite <- app_comm_cons, run_packages_cons, Hp.
      rewrite (IH2 p' e post Hp'). by rewrite <- app_assoc.
Qed.

End Platform.

(** * The theorems on concrete workouts

    The theorems above hold whatever the C library's [pow] returns; they
    are applied here to concrete workouts, for every [libm_pow]. *)

(** C3, as stated, fails on the calories: for that record
    [get_spent_calories] returns 797.805, which is not within 0.5 of
    797.006.  A run squares nothing: this is so whatever [pow] returns. *)
Lemma running_sample_calories_not_797006 :
  ∃ self spent,
    read_package "RUN" running_package = Ok self ∧
    (∀ libm_pow, returned (get_spent_calories libm_pow) self = Ok spent) ∧
    within (1 # 2) spent (797006 # 1000) = false.
Proof.
  exists (Running_object (VInt 15000) (VInt 1) (VInt 75)), (VFloat 797.805).
  split; [reflexivity|]. split; [|vm_compute; reflexivity].
  intros libm_pow. rewrite get_spent_calories_Running. vm_compute; reflexivity.
Qed.

Lemma walking_height_and_calories_witness :
  instantiate SportsWalking walking_package
  = Ok (SportsWalking_object (VInt 9000) (VInt 1) (VInt 75) (VFloat 1.8)) ∧
  ∀ libm_pow, ∃ height_m,
    py_truediv (VInt 180) (VInt 100) = Ok height_m ∧
    find_attr (SportsWalking_object (VInt 9000) (VInt 1) (VInt 75) (VFloat 1.8))
      "height_cm" = Some height_m ∧
    returned get_mean_speed
      (SportsWalking_object (VInt 9000) (VInt 1) (VInt 75) (VFloat 1.8))
    = base_mean_speed_kmh (VInt 9000) (VFloat 0.65) (VInt 1) ∧
    returned (get_spent_calories libm_pow)
      (SportsWalking_object (VInt 9000) (VInt 1) (VInt 75) (VFloat 1.8))
    = walking_calories libm_pow (VInt 9000) (VInt 1) (VInt 75) height_m.
Proof.
  split; [vm_compute; reflexivity|]. intros libm_pow.
  apply (walking_height_and_calories libm_pow
           (VInt 9000) (VInt 1) (VInt 75) (VInt 180)).
  vm_compute; reflexivity.
Defined.


Lemma workout_raises_only_witness :
  instantiate Running [VInt (10 ^ 400); VInt 1; VInt 75]
  = Ok (Running_object (VInt (10 ^ 400)) (VInt 1) (VInt 75)) ∧
  returned get_distance (Running_object (VInt (10 ^ 400)) (VInt 1) (VInt 75))
  = Raise OverflowError ∧
  ∀ libm_pow,
    (returned get_distance (Running_object (VInt (10 ^ 400)) (VInt 1) (VInt 75))
     = Raise OverflowError → OverflowError = OverflowError) ∧
    (returned get_mean_speed
       (Running_object (VInt (10 ^ 400)) (VInt 1) (VInt 75))
     = Raise OverflowError ∨
     returned (get_spent_calories libm_pow)
       (Running_object (VInt (10 ^ 400)) (VInt 1) (VInt 75))
     = Raise OverflowError ∨
     returned (show_training_info libm_pow)
       (Running_object (VInt (10 ^ 400)) (VInt 1) (VInt 75))
     = Raise OverflowError →
     OverflowError = OverflowError ∨ OverflowError = ZeroDivisionError).
Proof.
  split; [apply instantiate_Running|].
  split; [rewrite get_distance_Running; vm_compute; reflexivity|].
  intros libm_pow.
  apply (workout_raises_only libm_pow Running
           [VInt (10 ^ 400); VInt 1; VInt 75]).
  apply instantiate_Running.
Defined.

Lemma zero_division_cause_witness :
  instantiate Running [VInt 15000; VInt 0; VInt 75]
  = Ok (Running_object (VInt 15000) (VInt 0) (VInt 75)) ∧
  ∀ libm_pow,
    returned (get_spent_calories libm_pow)
      (Running_object (VInt 15000) (VInt 0) (VInt 75))
    = Raise ZeroDivisionError ∧
    ((∃ d, [VInt 15000; VInt 0; VInt 75] !! 1%nat = Some d ∧
           num_is_zero d = true) ∨
     (∃ hm, Running = SportsWalking ∧
            find_attr (Running_object (VInt 15000) (VInt 0) (VInt 75))
              "height_cm" = Some hm ∧
            num_is_zero hm = true)).
Proof.
  split; [apply instantiate_Running|]. intros libm_pow.
  assert (Hzde : returned (get_spent_calories libm_pow)
                   (Running_object (VInt 15000) (VInt 0) (VInt 75))
                 = Raise ZeroDivisionError) by (vm_compute; reflexivity).
  split; [exact Hzde|].
  apply (zero_division_cause libm_pow Running [VInt 15000; VInt 0; VInt 75]
           (Running_object (VInt 15000) (VInt 0) (VInt 75)));
    [apply instantiate_Running|].
  right. left. exact Hzde.
Defined.

Lemma zero_duration_no_report_witness :
  instantiate Swimming [VInt 720; VFloat 0; VInt 80; VInt 25; VInt 40]
  = Ok (Swimming_object (VInt 720) (VFloat 0) (VInt 80) (VInt 25) (VInt 40)) ∧
  [VInt 720; VFloat 0; VInt 80; VInt 25; VInt 40] !! 1%nat = Some (VFloat 0) ∧
  num_is_zero (VFloat 0) = true ∧
  ∀ libm_pow,
    (∃ e,
       returned get_mean_speed
         (Swimming_object (VInt 720) (VFloat 0) (VInt 80) (VInt 25) (VInt 40))
       = Raise e ∧
       returned (get_spent_calories libm_pow)
         (Swimming_object (VInt 720) (VFloat 0) (VInt 80) (VInt 25) (VInt 40))
       = Raise e) ∧
    (∃ e,
       returned (show_training_info libm_pow)
         (Swimming_object (VInt 720) (VFloat 0) (VInt 80) (VInt 25) (VInt 40))
       = Raise e).
Proof.
  split; [apply instantiate_Swimming|]. split; [reflexivity|].
  split; [reflexivity|]. intros libm_pow.
  apply (zero_duration_no_report libm_pow Swimming
           [VInt 720; VFloat 0; VInt 80; VInt 25; VInt 40]
           (Swimming_object (VInt 720) (VFloat 0) (VInt 80) (VInt 25) (VInt 40))
           (VFloat 0));
    [apply instantiate_Swimming | reflexivity | reflexivity].
Defined.

Lemma walking_zero_height_no_report_witness :
  num_is_zero (VInt 0) = true ∧
  ∀ libm_pow, ∃ self,
    instantiate SportsWalking [VInt 9000; VInt 1; VInt 75; VInt 0] = Ok self ∧
    (∃ e, returned (get_spent_calories libm_pow) self = Raise e) ∧
    (∃ e, returned (show_training_info libm_pow) self = Raise e).
Proof.
  split; [reflexivity|]. intros libm_pow.
  apply (walking_zero_height_no_report libm_pow
           (VInt 9000) (VInt 1) (VInt 75) (VInt 0)).
  reflexivity.
Defined.

Lemma report_matches_workout_witness :
  read_package "RUN" running_package = Ok running_sample ∧
  ∀ libm_pow,
    returned (show_training_info libm_pow) running_sample = Ok running_report ∧
    training_type running_report
    = (if decide ("RUN" = "SWM") then "Swimming"
       else if decide ("RUN" = "RUN") then "Running" else "SportsWalking") ∧
    returned get_distance running_sample = Ok (distance running_report) ∧
    returned get_mean_speed running_sample = Ok (speed running_report) ∧
    returned (get_spent_calories libm_pow) running_sample
    = Ok (calories running_report).
Proof.
  split; [vm_compute; reflexivity|]. intros libm_pow.
  split; [vm_compute; reflexivity|].
  apply (report_matches_workout libm_pow "RUN" running_package running_sample
           running_report); vm_compute; reflexivity.
Defined.

Lemma default_speed_in_report_witness :
  read_package "RUN" running_package = Ok running_sample ∧
  "RUN" ≠ "SWM" ∧
  ∀ libm_pow,
    returned (show_training_info libm_pow) running_sample = Ok running_report ∧
    py_truediv (distance running_report) (duration running_report)
    = Ok (speed running_report).
Proof.
  split; [vm_compute; reflexivity|]. split; [discriminate|]. intros libm_pow.
  split; [vm_compute; reflexivity|].
  apply (default_speed_in_report libm_pow "RUN" running_package running_sample
           running_report);
    [vm_compute; reflexivity | discriminate | vm_compute; reflexivity].
Defined.

Lemma report_quantities_are_floats_witness :
  instantiate Running running_package = Ok running_sample ∧
  ∀ libm_pow,
    returned (show_training_info libm_pow) running_sample = Ok running_report ∧
    (∃ x, distance running_report = VFloat x) ∧
    (∃ x, speed running_report = VFloat x) ∧
    (∃ x, calories running_report = VFloat x).
Proof.
  split; [vm_compute; reflexivity|]. intros libm_pow.
  split; [vm_compute; reflexivity|].
  apply (report_quantities_are_floats libm_pow Running running_package
           running_sample running_report); vm_compute; reflexivity.
Defined.

Lemma report_renders_witness :
  instantiate Swimming swimming_package = Ok swimming_sample ∧
  ∀ libm_pow,
    returned (show_training_info libm_pow) swimming_sample
    = Ok swimming_report ∧
    ∃ message, get_message swimming_report = Ok message.
Proof.
  split; [vm_compute; reflexivity|]. intros libm_pow.
  split; [vm_compute; reflexivity|].
  apply (report_renders libm_pow Swimming swimming_package swimming_sample
           swimming_report); vm_compute; reflexivity.
Defined.

Lemma run_packages_lines_witness :
  read_package "XXX" running_package = Raise ValueError ∧
  ∀ libm_pow,
    Forall2 (λ p line, package_line libm_pow p = Ok line)
      [("SWM", swimming_package)]
      ["Тип тренировки: Swimming; Длительность: 1.000 ч.; Дистанция: 0.994 км; Ср. скорость: 1.000 км/ч; Потрачено ккал: 336.000."] ∧
    package_line libm_pow ("XXX", running_package) = Raise ValueError ∧
    run_packages libm_pow
      ([("SWM", swimming_package)]
       ++ ("XXX", running_package) :: [("WLK", walking_package)])
      []
    = (Raise ValueError,
       [] ++ ["Тип тренировки: Swimming; Длительность: 1.000 ч.; Дистанция: 0.994 км; Ср. скорость: 1.000 км/ч; Потрачено ккал: 336.000."]).
Proof.
  split; [vm_compute; reflexivity|]. intros libm_pow.
  assert (Hpre : Forall2 (λ p line, package_line libm_pow p = Ok line)
            [("SWM", swimming_package)]
            ["Тип тренировки: Swimming; Длительность: 1.000 ч.; Дистанция: 0.994 км; Ср. скорость: 1.000 км/ч; Потрачено ккал: 336.000."]).
  { constructor; [vm_compute; reflexivity|constructor]. }
  split; [exact Hpre|]. split; [vm_compute; reflexivity|].
  destruct (run_packages_lines libm_pow _ _ [] Hpre) as [_ Hstop].
  apply Hstop. vm_compute. reflexivity.
Defined.
